(** * Workflow submission: a model of [MCJobSubmission/mcJobSubmission.py]

    The script reads a pipeline description (workflow metadata, stage
    defaults, an ordered list of stages), merges the defaults into every
    stage, builds one [justin create-stage] command per stage and runs
    [create-workflow], the stage commands, [submit-workflow] and
    [show-stages] in that order, stopping at the first failure.

    The development follows the script function by function:
    - [Py]       the values a loaded YAML/JSON document is made of, with the
                 dictionary operations and built-ins the script calls;
    - [Shlex]    [shlex.quote], used to echo and to wrap command lines;
    - [Script]   [require], [as_str], [build_justin_cmd], [run_cmd],
                 [merge_defaults] and [main], over a trace of observable
                 events (lines printed, processes spawned);
    - [Store]    [merge_defaults] once more, statement by statement over a
                 store of mutable dictionaries, for the aliasing question. *)

From Stdlib Require Import ZArith List String Ascii Bool Lia DecimalString.
From stdpp Require Import base strings gmap.
Import ListNotations.

Open Scope string_scope.
Open Scope list_scope.

(** ** Insertion-ordered maps with string keys *)

Module Assoc.
Section Assoc.
Context {V : Type}.

Definition keys (d : list (string * V)) : list string := map fst d.

(** A Python dictionary holds every key once. *)
Definition dict_wf (d : list (string * V)) : Prop := List.NoDup (keys d).

Fixpoint dict_get (k : string) (d : list (string * V)) : option V :=
  match d with
  | [] => None
  | (k', v) :: d' => if String.eqb k' k then Some v else dict_get k d'
  end.

Definition dict_has (k : string) (d : list (string * V)) : bool :=
  match dict_get k d with Some _ => true | None => false end.

(** [d.get(k, default)]. *)
Definition get (d : list (string * V)) (k : string) (default : V) : V :=
  match dict_get k d with Some v => v | None => default end.

(** [d[k] = v]: an existing key keeps its position, a new one goes last. *)
Fixpoint dict_set (k : string) (v : V) (d : list (string * V)) : list (string * V) :=
  match d with
  | [] => [(k, v)]
  | (k', v') :: d' =>
      if String.eqb k' k then (k', v) :: d' else (k', v') :: dict_set k v d'
  end.

(** [d.update(other)]. *)
Definition dict_update (d other : list (string * V)) : list (string * V) :=
  fold_left (fun acc kv => dict_set (fst kv) (snd kv) acc) other d.

(** [del d[k]], for a key that may be absent. *)
Definition dict_remove (k : string) (d : list (string * V)) : list (string * V) :=
  List.filter (fun kv => negb (String.eqb (fst kv) k)) d.

End Assoc.
End Assoc.
Export Assoc.

(** ** Exceptions and effects *)

(** The exceptions the script can end with; [sys.exit(n)] raises
    [SystemExit]. *)
Inductive exn : Type :=
| ValueError (msg : string)
| TypeError
| AttributeError
| KeyError (key : string)
| SystemExit (code : Z).

Inductive result (A : Type) : Type :=
| Ok (a : A)
| Raise (e : exn).
Arguments Ok {A} a.
Arguments Raise {A} e.

Definition rbind {A B} (r : result A) (k : A -> result B) : result B :=
  match r with
  | Ok a => k a
  | Raise e => Raise e
  end.

Declare Scope result_scope.
Delimit Scope result_scope with result.
Notation "x <- r ;; k" := (rbind r (fun x => k))
  (at level 100, r at next level, right associativity) : result_scope.

(** Statements with effects on a state [St] (the trace of the run, the store
    of objects): the state changes, and stays as it is when an exception is
    raised. *)
Definition stx (St A : Type) : Type := St -> result A * St.

Definition ret {St A} (a : A) : stx St A := fun s => (Ok a, s).

Definition bind {St A B} (m : stx St A) (k : A -> stx St B) : stx St B :=
  fun s =>
    match m s with
    | (Ok a, s') => k a s'
    | (Raise e, s') => (Raise e, s')
    end.

Definition lift {St A} (r : result A) : stx St A := fun s => (r, s).

Definition raise {St A} (e : exn) : stx St A := lift (Raise e).

Declare Scope stx_scope.
Delimit Scope stx_scope with stx.
Notation "x <- m ;; k" := (bind m (fun x => k))
  (at level 100, m at next level, right associativity) : stx_scope.
Notation "m ;; k" := (bind m (fun _ => k))
  (at level 100, right associativity) : stx_scope.

(** ** Python values *)

Module Py.

(** The values of a loaded document: what [json.loads] and [yaml.safe_load]
    produce for null, booleans, integers, strings, sequences and mappings with
    string keys.  A mapping keeps its insertion order, as a Python [dict]
    does. *)
#[local] Unset Elimination Schemes.
Inductive pyval : Type :=
| PNone
| PBool (b : bool)
| PInt (z : Z)
| PStr (s : string)
| PList (items : list pyval)
| PDict (entries : list (string * pyval)).
#[local] Set Elimination Schemes.

Definition dict : Type := list (string * pyval).

(** [bool(v)]. *)
Definition truthy (v : pyval) : bool :=
  match v with
  | PNone => false
  | PBool b => b
  | PInt z => negb (Z.eqb z 0)
  | PStr s => negb (String.eqb s "")
  | PList l => match l with [] => false | _ => true end
  | PDict d => match d with [] => false | _ => true end
  end.

(** [v or w]. *)
Definition py_or (v w : pyval) : pyval := if truthy v then v else w.

(** [v.get(k, default)]: only mappings have [get]. *)
Definition py_get (v : pyval) (k : string) (default : pyval) : result pyval :=
  match v with
  | PDict d => Ok (match dict_get k d with Some x => x | None => default end)
  | _ => Raise AttributeError
  end.

(** [v[k]] for a string [k]. *)
Definition py_getitem (v : pyval) (k : string) : result pyval :=
  match v with
  | PDict d => match dict_get k d with Some x => Ok x | None => Raise (KeyError k) end
  | _ => Raise TypeError
  end.

Fixpoint is_prefix (p s : string) : bool :=
  match p, s with
  | EmptyString, _ => true
  | String a p', String b s' => Ascii.eqb a b && is_prefix p' s'
  | String _ _, EmptyString => false
  end.

Fixpoint is_substring (p s : string) : bool :=
  is_prefix p s ||
  match s with
  | EmptyString => false
  | String _ s' => is_substring p s'
  end.

(** [k in v] for a string [k]: key membership on a mapping, element
    membership on a sequence, substring test on a string. *)
Definition py_in (k : string) (v : pyval) : result bool :=
  match v with
  | PDict d => Ok (dict_has k d)
  | PList l =>
      Ok (existsb (fun x => match x with PStr s => String.eqb k s | _ => false end) l)
  | PStr s => Ok (is_substring k s)
  | _ => Raise TypeError
  end.

Definition is_dict (v : pyval) : bool :=
  match v with PDict _ => true | _ => false end.

Definition is_list (v : pyval) : bool :=
  match v with PList _ => true | _ => false end.

(** [str(z)] for an integer. *)
Definition str_of_Z (z : Z) : string := NilZero.string_of_int (Z.to_int z).

End Py.
Export Py.

(** ** [shlex.quote] *)

Module Shlex.

Definition between (lo hi : nat) (c : ascii) : bool :=
  let n := nat_of_ascii c in Nat.leb lo n && Nat.leb n hi.

(** The characters outside [[^\w@%+=:,./-]] (ASCII). *)
Definition safe_char (c : ascii) : bool :=
  between 97 122 c || between 65 90 c || between 48 57 c ||
  existsb (Ascii.eqb c)
    ["_"; "@"; "%"; "+"; "="; ":"; ","; "."; "/"; "-"]%char.

Fixpoint all_safe (s : string) : bool :=
  match s with
  | EmptyString => true
  | String c s' => safe_char c && all_safe s'
  end.

Definition squote : ascii := ascii_of_nat 39.
Definition dquote : ascii := ascii_of_nat 34.

(** A single quote is closed, written between double quotes and reopened. *)
Definition escaped_squote : string :=
  String squote (String dquote (String squote (String dquote (String squote "")))).

Fixpoint escape (s : string) : string :=
  match s with
  | EmptyString => EmptyString
  | String c s' =>
      if Ascii.eqb c squote then escaped_squote +:+ escape s'
      else String c (escape s')
  end.

Definition quote (s : string) : string :=
  match s with
  | EmptyString => String squote (String squote "")
  | _ => if all_safe s then s
         else String squote (escape s) +:+ String squote ""
  end.

(** [" ".join(shlex.quote(x) for x in argv)]. *)
Definition join (argv : list string) : string :=
  String.concat " " (map quote argv).

End Shlex.

(** ** The script *)

(** What the script leaves to the interpreter and to the operating system:
    [str()] of a sequence or a mapping, [dict()] of a value that is not a
    mapping (an iterable of pairs, or a [TypeError]/[ValueError]), and the
    outcome of a spawned process. *)
Class Builtins : Type := {
  repr_container : pyval -> string;
  dict_of_iterable : pyval -> result dict
}.

(** What the run makes observable, in order. *)
Inductive event : Type :=
| Stdout (line : string)
| Stderr (line : string)
| Spawn (argv : list string).

Definition trace : Type := list event.

(** [subprocess.run] on [argv], after the events so far: exit status,
    standard output and standard error of the process. *)
Class System : Type := {
  subprocess_run : trace -> list string -> Z * string * string
}.

(** [subprocess.CompletedProcess] (and the [Dummy] of a dry run). *)
Record CompletedProcess : Type := {
  returncode : Z;
  stdout : option string;
  stderr : option string
}.

(** The parsed command line. *)
Record Args : Type := {
  dry_run : bool;
  with_dune_setup : bool;
  instance : option string;
  url : option string;
  verbose : bool
}.

(** The statements of the script act on the trace. *)
Definition io (A : Type) : Type := stx trace A.

Definition emit (e : event) : io unit := fun t => (Ok tt, t ++ [e]).

(** [print(line)] and [print(line, file=sys.stderr)]. *)
Definition print (line : string) : io unit := emit (Stdout line).
Definition eprint (line : string) : io unit := emit (Stderr line).

(** [sys.exit(code)]. *)
Definition sys_exit {A} (code : Z) : io A := raise (SystemExit code).

(** The status the interpreter exits with: 0 at the end of [main], the code
    of [sys.exit], 1 after a traceback. *)
Definition exit_status (r : result unit) : Z :=
  match r with
  | Ok _ => 0
  | Raise (SystemExit code) => code
  | Raise _ => 1
  end.

(** *** Strings *)

(** [c.isspace()], for the characters below 256. *)
Definition is_space (c : ascii) : bool :=
  let n := nat_of_ascii c in
  (Nat.leb 9 n && Nat.leb n 13) || (Nat.leb 28 n && Nat.leb n 32) ||
  Nat.eqb n 133 || Nat.eqb n 160.

Fixpoint lstrip (s : string) : string :=
  match s with
  | EmptyString => EmptyString
  | String c s' => if is_space c then lstrip s' else s
  end.

Fixpoint rstrip (s : string) : string :=
  match s with
  | EmptyString => EmptyString
  | String c s' =>
      let r := rstrip s' in
      if is_space c && String.eqb r "" then EmptyString else String c r
  end.

(** [s.strip()]. *)
Definition strip (s : string) : string := rstrip (lstrip s).

(** The one-character strings a string iterates over. *)
Definition chars (s : string) : list string :=
  map (fun c => String c EmptyString) (list_ascii_of_string s).

Definition nonempty (s : string) : bool := negb (String.eqb s "").

Section Script.
Context {builtins : Builtins} {system : System}.

(** [str(v)]. *)
Definition py_str (v : pyval) : string :=
  match v with
  | PNone => "None"
  | PBool true => "True"
  | PBool false => "False"
  | PInt z => str_of_Z z
  | PStr s => s
  | _ => repr_container v
  end.

(** [dict(v)]: a copy of a mapping. *)
Definition py_dict (v : pyval) : result dict :=
  match v with
  | PDict d => Ok d
  | _ => dict_of_iterable v
  end.

Definition require (cond : bool) (msg : string) : result unit :=
  if cond then Ok tt else Raise (ValueError msg).

Definition as_str (v : pyval) : string :=
  match v with
  | PNone => ""
  | _ => py_str v
  end.

Definition prelude : string :=
  "source /cvmfs/dune.opensciencegrid.org/products/dune/setup_dune.sh >/dev/null 2>&1; "
  +:+ "setup justin >/dev/null 2>&1; ".

Definition build_justin_cmd (argv_list : list string) (with_dune_setup : bool)
  : list string :=
  if negb with_dune_setup then argv_list
  else ["bash"; "-lc"; prelude +:+ Shlex.join argv_list].

(** The result of a dry run. *)
Definition Dummy : CompletedProcess :=
  {| returncode := 0; stdout := Some ""; stderr := Some "" |}.

Definition spawn (real_argv : list string) (capture : bool) : io CompletedProcess :=
  fun t =>
    let '(rc, out, err) := subprocess_run t real_argv in
    (Ok {| returncode := rc;
           stdout := if capture then Some out else None;
           stderr := if capture then Some err else None |},
     t ++ [Spawn real_argv]).

Definition run_cmd (argv_list : list string) (dry_run with_dune_setup capture : bool)
  : io CompletedProcess :=
  (let real_argv := build_justin_cmd argv_list with_dune_setup in
   let printable := Shlex.join real_argv in
   print ("+ " +:+ printable) ;;
   if dry_run then ret Dummy
   else spawn real_argv capture)%stx.

Definition merge_defaults (stage defaults : pyval) : result dict :=
  (merged <- py_dict defaults ;;
   other <- py_dict stage ;;
   let merged := dict_update merged other in
   dv <- py_get defaults "env" (PDict []) ;;
   env_d <- py_dict (py_or dv (PDict [])) ;;
   sv <- py_get stage "env" (PDict []) ;;
   env_s <- py_dict (py_or sv (PDict [])) ;;
   let env_d := dict_update env_d env_s in
   Ok (dict_set "env" (PDict env_d) merged))%result.

(** *** Reading the merged stage record *)

(** [k in d and d[k] is not None]: the value, when the test holds. *)
Definition set_not_none (d : dict) (k : string) : option pyval :=
  match dict_get k d with
  | Some PNone => None
  | o => o
  end.

(** [k in d and d[k]] (and [d.get(k)] as a condition): the value, when it is
    true. *)
Definition set_truthy (d : dict) (k : string) : option pyval :=
  match dict_get k d with
  | Some v => if truthy v then Some v else None
  | None => None
  end.

(** *** The flags of one [create-stage] command, block by block *)

(** Resources. *)
Definition resource_flags (st_merged : dict) : list string :=
  let cmd := [] in
  let cmd := match dict_get "wall_seconds" st_merged with
             | Some v => cmd ++ ["--wall-seconds"; as_str v]
             | None => cmd
             end in
  let cmd := match dict_get "rss_mib" st_merged with
             | Some v => cmd ++ ["--rss-mib"; as_str v]
             | None => cmd
             end in
  let cmd := match dict_get "processors" st_merged with
             | Some v => cmd ++ ["--processors"; as_str v]
             | None => cmd
             end in
  if truthy (get st_merged "gpu" (PBool false)) then cmd ++ ["--gpu"] else cmd.

(** Env vars (repeatable). *)
Definition env_flags (stage_id : string) (st_merged : dict) : result (list string) :=
  let env := py_or (get st_merged "env" (PDict [])) (PDict []) in
  match env with
  | PDict items =>
      Ok (flat_map (fun kv => ["--env"; fst kv +:+ "=" +:+ py_str (snd kv)]) items)
  | _ =>
      Raise (ValueError ("Stage " +:+ stage_id +:+ ": env must be a dict of KEY: VALUE"))
  end.

Definition tarfile_flags (st_merged : dict) : list string :=
  match set_not_none st_merged "tarfile_dir" with
  | Some v => ["--env"; "INPUT_TAR_DIR_LOCAL=" +:+ as_str v]
  | None => []
  end.

(** Code version to run.  In the [else] branch the script adds a string to
    the list, and [+=] extends a list by the items of what it is given. *)
Definition dunesw_flags (st_merged : dict) : list string :=
  match set_not_none st_merged "dunesw_version" with
  | Some v => ["--env"; "DUNESW_VERSION=" +:+ as_str v]
  | None => chars "--env DUNESW_VERSION=v10_17_01d00"
  end.

(** Path to FHICL files to pull over. *)
Definition fhicl_flags (st_merged : dict) : list string :=
  match set_not_none st_merged "fhicl_files" with
  | Some v => ["--env"; "FCL_TGZ_URL=" +:+ as_str v]
  | None => []
  end.

Definition next_stage_flags (st_merged : dict) : list string :=
  match set_truthy st_merged "output_pattern_next_stage" with
  | Some v => ["--output-pattern-next-stage"; as_str v]
  | None => []
  end.

(** Output patterns (repeatable): [output_patterns], or else
    [output_pattern]. *)
Definition output_pattern_flags (stage_id : string) (st_merged : dict)
  : result (list string) :=
  match set_truthy st_merged "output_patterns" with
  | Some ops =>
      match ops with
      | PList pats => Ok (flat_map (fun pat => ["--output-pattern"; as_str pat]) pats)
      | _ => Raise (ValueError ("Stage " +:+ stage_id +:+ ": output_patterns must be a list"))
      end
  | None =>
      match set_truthy st_merged "output_pattern" with
      | Some v => Ok ["--output-pattern"; as_str v]
      | None => Ok []
      end
  end.

(** RSE targeting. *)
Definition rse_flags (st_merged : dict) : list string :=
  let cmd := [] in
  let cmd := match set_truthy st_merged "output_rse" with
             | Some v => cmd ++ ["--output-rse"; as_str v]
             | None => cmd
             end in
  match set_truthy st_merged "output_rse_expression" with
  | Some v => cmd ++ ["--output-rse-expression"; as_str v]
  | None => cmd
  end.

(** Lifetime and max-distance. *)
Definition lifetime_flags (st_merged : dict) : list string :=
  let cmd := [] in
  let cmd := match set_not_none st_merged "lifetime_days" with
             | Some v => cmd ++ ["--lifetime-days"; as_str v]
             | None => cmd
             end in
  match set_not_none st_merged "max_distance" with
  | Some v => cmd ++ ["--max-distance"; as_str v]
  | None => cmd
  end.

(** Site restrictions (repeatable). *)
Definition site_flags (stage_id : string) (st_merged : dict) : result (list string) :=
  match set_truthy st_merged "sites" with
  | Some sites =>
      match sites with
      | PList l => Ok (flat_map (fun s => ["--site"; as_str s]) l)
      | _ => Raise (ValueError ("Stage " +:+ stage_id +:+ ": sites must be a list"))
      end
  | None => Ok []
  end.

(** Extra classads: a list, or a single value. *)
Definition classad_flags (st_merged : dict) : list string :=
  match set_truthy st_merged "classad" with
  | Some (PList l) => flat_map (fun one => ["--classad"; as_str one]) l
  | Some ca => ["--classad"; as_str ca]
  | None => []
  end.

(** The body of the stage loop after the merge, up to the command: the
    stage id and the [create-stage] command line. *)
Definition create_stage_cmd (justin_global : list string) (wfid : string)
    (defaults : pyval) (st_merged : dict) : result (string * list string) :=
  (id <- py_getitem (PDict st_merged) "id" ;;
   let stage_id := as_str id in
   drepo <- py_get defaults "repo" PNone ;;
   let repo := get st_merged "repo" drepo in
   dref <- py_get defaults "ref" PNone ;;
   let ref := get st_merged "ref" dref in
   let jobscript := get st_merged "jobscript" PNone in
   _ <- require (truthy repo)
          ("Stage " +:+ stage_id +:+ ": repo missing (set defaults.repo or stage.repo).") ;;
   _ <- require (truthy ref)
          ("Stage " +:+ stage_id +:+ ": ref missing (set defaults.ref or stage.ref).") ;;
   _ <- require (truthy jobscript)
          ("Stage " +:+ stage_id +:+ ": jobscript missing.") ;;
   let cmd := justin_global ++
     ["create-stage";
      "--workflow-id"; as_str (PStr wfid);
      "--stage-id"; stage_id;
      "--jobscript-git"; py_str repo +:+ "/" +:+ py_str jobscript +:+ ":" +:+ py_str ref] in
   let cmd := cmd ++ resource_flags st_merged in
   env <- env_flags stage_id st_merged ;;
   let cmd := cmd ++ env in
   let cmd := cmd ++ tarfile_flags st_merged in
   let cmd := cmd ++ dunesw_flags st_merged in
   let cmd := cmd ++ fhicl_flags st_merged in
   let cmd := cmd ++ next_stage_flags st_merged in
   ops <- output_pattern_flags stage_id st_merged ;;
   let cmd := cmd ++ ops in
   let cmd := cmd ++ rse_flags st_merged in
   let cmd := cmd ++ lifetime_flags st_merged in
   sites <- site_flags stage_id st_merged ;;
   let cmd := cmd ++ sites in
   let cmd := cmd ++ classad_flags st_merged in
   Ok (stage_id, cmd))%result.

(** The body of the stage loop up to the command: the two checks on the
    entry, the merge, the command. *)
Definition stage_cmd (justin_global : list string) (wfid : string)
    (defaults st : pyval) : result (string * list string) :=
  (_ <- require (is_dict st) "Each stage entry must be a mapping/dict." ;;
   has_id <- py_in "id" st ;;
   _ <- require has_id "Each stage needs an 'id'." ;;
   st_merged <- merge_defaults st defaults ;;
   create_stage_cmd justin_global wfid defaults st_merged)%result.

(** *** The run *)

Definition failed (cp : CompletedProcess) : bool := negb (Z.eqb (returncode cp) 0).

(** The block that follows every call: on a status other than 0, a line on
    standard error, the captured standard error when there is some, and
    [sys.exit(code)]. *)
Definition check_call (cp : CompletedProcess) (msg : string) (code : Z) : io unit :=
  (if failed cp then
     eprint msg ;;
     match stderr cp with
     | Some err => if nonempty err then eprint err else ret tt
     | None => ret tt
     end ;;
     sys_exit code
   else ret tt)%stx.

(** [for st in stages: ...] *)
Fixpoint create_stages (args : Args) (justin_global : list string) (wfid : string)
    (defaults : pyval) (stages : list pyval) : io unit :=
  match stages with
  | [] => ret tt
  | st :: rest =>
      (sc <- lift (stage_cmd justin_global wfid defaults st) ;;
       let stage_id := fst sc in
       let cmd := snd sc in
       cp <- run_cmd cmd (dry_run args) (with_dune_setup args) true ;;
       check_call cp ("ERROR: create-stage failed for stage " +:+ stage_id +:+ ".") 3 ;;
       create_stages args justin_global wfid defaults rest)%stx
  end.

(** The checked parts of the loaded document. *)
Record Config : Type := {
  workflow : pyval;
  defaults : pyval;
  stages : list pyval
}.

(** Lines 113-119: the three sections and what is required of them. *)
Definition read_config (cfg : pyval) : result Config :=
  (w <- py_get cfg "workflow" (PDict []) ;;
   let workflow := py_or w (PDict []) in
   d <- py_get cfg "defaults" (PDict []) ;;
   let defaults := py_or d (PDict []) in
   s <- py_get cfg "stages" (PList []) ;;
   let stages := py_or s (PList []) in
   _ <- require (match stages with PList (_ :: _) => true | _ => false end)
          "Config must contain a non-empty 'stages:' list." ;;
   has_description <- py_in "description" workflow ;;
   _ <- require has_description "workflow.description is required" ;;
   has_monte_carlo <- py_in "monte_carlo" workflow ;;
   _ <- require has_monte_carlo "workflow.monte_carlo is required" ;;
   Ok {| workflow := workflow;
         defaults := defaults;
         stages := match stages with PList l => l | _ => [] end |})%result.

Definition option_truthy (o : option string) : option string :=
  match o with
  | Some s => if nonempty s then Some s else None
  | None => None
  end.

(** Global justin flags. *)
Definition justin_global (args : Args) : list string :=
  let g := ["justin"] in
  let g := if verbose args then g ++ ["-v"] else g in
  let g := match option_truthy (instance args) with
           | Some i => g ++ ["--instance"; i]
           | None => g
           end in
  match option_truthy (url args) with
  | Some u => g ++ ["--url"; u]
  | None => g
  end.

Definition create_wf_cmd (args : Args) (workflow : pyval) : result (list string) :=
  (description <- py_getitem workflow "description" ;;
   monte_carlo <- py_getitem workflow "monte_carlo" ;;
   Ok (justin_global args ++
       ["create-workflow";
        "--description"; as_str description;
        "--monte-carlo"; as_str monte_carlo]))%result.

(** The create-workflow step: the call, the check of its status, the
    workflow id. *)
Definition create_workflow (args : Args) (workflow : pyval) : io string :=
  (create_wf <- lift (create_wf_cmd args workflow) ;;
   cp <- run_cmd create_wf (dry_run args) (with_dune_setup args) true ;;
   check_call cp "ERROR: create-workflow failed." 2 ;;
   let wfid := if negb (dry_run args)
               then strip (match stdout cp with Some out => out | None => "" end)
               else "DRYRUN_WFID" in
   lift (require (nonempty wfid)
           "Could not parse workflow id from create-workflow output.") ;;
   print ("WFID=" +:+ wfid) ;;
   ret wfid)%stx.

Definition submit_cmd (args : Args) (wfid : string) : list string :=
  justin_global args ++ ["submit-workflow"; "--workflow-id"; as_str (PStr wfid)].

Definition show_cmd (args : Args) (wfid : string) : list string :=
  justin_global args ++ ["show-stages"; "--workflow-id"; as_str (PStr wfid)].

(** The submit-workflow step and the final show-stages. *)
Definition submit_workflow (args : Args) (wfid : string) : io unit :=
  (cp <- run_cmd (submit_cmd args wfid) (dry_run args) (with_dune_setup args) true ;;
   check_call cp "ERROR: submit-workflow failed." 4 ;;
   print ("Submitted WFID=" +:+ wfid) ;;
   run_cmd (show_cmd args wfid) (dry_run args) (with_dune_setup args) false ;;
   ret tt)%stx.

(** [main], from the loaded document on. *)
Definition main (args : Args) (cfg : pyval) : io unit :=
  (c <- lift (read_config cfg) ;;
   wfid <- create_workflow args (workflow c) ;;
   create_stages args (justin_global args) wfid (defaults c) (stages c) ;;
   submit_workflow args wfid)%stx.

End Script.

(** ** [merge_defaults] over a store of objects

    A Python dictionary is an object with an identity: two names can hold the
    same dictionary, and [update] and item assignment change it in place.
    Here the values are scalars and references, the store maps a reference to
    the dictionary or list it points to, and [merge_defaults] is run one
    statement at a time. *)

Module Store.

Inductive val : Type :=
| VNone
| VBool (b : bool)
| VInt (z : Z)
| VStr (s : string)
| VRef (l : nat).

Inductive obj : Type :=
| ODict (entries : list (string * val))
| OList (items : list val).

Abbreviation store := (gmap nat obj).

(** [dict()] of what is not a dictionary: it reads the store and builds the
    entries of the new dictionary, or raises. *)
Class StoreBuiltins : Type := {
  dict_of_iterable_s : store -> val -> result (list (string * val))
}.

(** The entries of the dictionary a value refers to. *)
Definition entries (h : store) (v : val) : option (list (string * val)) :=
  match v with
  | VRef l => match h !! l with
              | Some (ODict es) => Some es
              | _ => None
              end
  | _ => None
  end.

(** [bool(v)]. *)
Definition truthy_s (h : store) (v : val) : bool :=
  match v with
  | VNone => false
  | VBool b => b
  | VInt z => negb (Z.eqb z 0)
  | VStr s => negb (String.eqb s "")
  | VRef l => match h !! l with
              | Some (ODict (_ :: _)) => true
              | Some (OList (_ :: _)) => true
              | _ => false
              end
  end.

(** A new object, at a reference the store does not hold yet. *)
Definition alloc (o : obj) : stx store nat :=
  fun h => let l := fresh (dom h) in (Ok l, <[l := o]> h).

(** The literal [{}]. *)
Definition new_dict : stx store val :=
  (l <- alloc (ODict []) ;; ret (VRef l))%stx.

(** [dict(v)]: a new dictionary with the entries of [v]. *)
Definition py_dict_s {SB : StoreBuiltins} (v : val) : stx store nat :=
  fun h =>
    match entries h v with
    | Some es => alloc (ODict es) h
    | None =>
        match dict_of_iterable_s h v with
        | Ok es => alloc (ODict es) h
        | Raise e => (Raise e, h)
        end
    end.

(** [v.get(k, default)]: the method is looked up, then the default is
    evaluated, then the key is read. *)
Definition py_get_s (v : val) (k : string) (default : stx store val) : stx store val :=
  fun h =>
    match entries h v with
    | Some es => (d <- default ;; ret (get es k d))%stx h
    | None => (Raise AttributeError, h)
    end.

(** [v or w], where [w] is evaluated only when [v] is false. *)
Definition py_or_s (v : val) (w : stx store val) : stx store val :=
  fun h => if truthy_s h v then (Ok v, h) else w h.

(** [l.update(v)], on the dictionary at [l]. *)
Definition py_update_s {SB : StoreBuiltins} (l : nat) (v : val) : stx store unit :=
  fun h =>
    match h !! l with
    | Some (ODict old) =>
        match entries h v with
        | Some es => (Ok tt, <[l := ODict (dict_update old es)]> h)
        | None =>
            match dict_of_iterable_s h v with
            | Ok es => (Ok tt, <[l := ODict (dict_update old es)]> h)
            | Raise e => (Raise e, h)
            end
        end
    | _ => (Raise AttributeError, h)
    end.

(** [l[k] = v], on the dictionary at [l]. *)
Definition py_setitem_s (l : nat) (k : string) (v : val) : stx store unit :=
  fun h =>
    match h !! l with
    | Some (ODict old) => (Ok tt, <[l := ODict (dict_set k v old)]> h)
    | _ => (Raise TypeError, h)
    end.

Definition merge_defaults_s {SB : StoreBuiltins} (stage defaults : val) : stx store val :=
  (merged <- py_dict_s defaults ;;
   py_update_s merged stage ;;
   dv <- py_get_s defaults "env" new_dict ;;
   dv <- py_or_s dv new_dict ;;
   env_d <- py_dict_s dv ;;
   sv <- py_get_s stage "env" new_dict ;;
   sv <- py_or_s sv new_dict ;;
   env_s <- py_dict_s sv ;;
   py_update_s env_d (VRef env_s) ;;
   py_setitem_s merged "env" (VRef env_d) ;;
   ret (VRef merged))%stx.

(** Every object of [h] is in [h'], as it was. *)
Definition extends (h h' : store) : Prop :=
  forall l o, h !! l = Some o -> h' !! l = Some o.

(** Run from a store that extends [h0], the statement [m] ends in a store
    that extends [h0], and a returned value satisfies [Q] there. *)
Definition keeps_at {A} (h0 : store) (m : stx store A) (Q : A -> store -> Prop)
    (h : store) : Prop :=
  extends h0 h ->
  extends h0 (snd (m h)) /\
  forall a, fst (m h) = Ok a -> Q a (snd (m h)).

End Store.

(** ** Vocabulary of the statements *)

(** The [env] entry of a record as [merge_defaults] reads it:
    [dict(d.get("env", {}) or {})]. *)
Definition env_of {builtins : Builtins} (d : dict) : result dict :=
  py_dict (py_or (get d "env" (PDict [])) (PDict [])).

(** A record without an [env] entry, or with [env: null]. *)
Definition env_missing (d : dict) : Prop :=
  dict_get "env" d = None \/ dict_get "env" d = Some PNone.

(** What [check_call] prints after its own line: the captured standard
    error, when there is some. *)
Definition stderr_lines (cp : CompletedProcess) : list event :=
  match stderr cp with
  | Some err => if nonempty err then [Stderr err] else []
  | None => []
  end.

(** An entry of the stage list that is not a mapping, or has no [id]. *)
Definition bad_entry (st : pyval) : bool :=
  match st with
  | PDict d => negb (dict_has "id" d)
  | _ => true
  end.

(** The message the stage loop raises on such an entry. *)
Definition entry_error (st : pyval) : string :=
  if is_dict st then "Each stage needs an 'id'."
  else "Each stage entry must be a mapping/dict.".

(** Two consecutive tokens of a command line. *)
Fixpoint adjacent (a b : string) (cmd : list string) : bool :=
  match cmd with
  | x :: (y :: _) as rest => (String.eqb x a && String.eqb y b) || adjacent a b rest
  | _ => false
  end.

(** No process was spawned in a trace. *)
Definition no_spawn (t : trace) : Prop := forall argv, ~ List.In (Spawn argv) t.

(** Two records that agree on every key outside [ks]. *)
Definition agree_except (ks : list string) (d d' : dict) : Prop :=
  forall k, ~ List.In k ks -> dict_get k d' = dict_get k d.

(** The line [run_cmd] echoes for a command. *)
Definition echo_line (argv_list : list string) (with_dune_setup : bool) : string :=
  "+ " +:+ Shlex.join (build_justin_cmd argv_list with_dune_setup).

(** ** Sample inputs *)

Module Sample.

(** Built-ins that render every container alike and refuse to build a
    dictionary from anything but a mapping. *)
Definition sample_builtins : Builtins :=
  {| repr_container := fun _ => "[...]";
     dict_of_iterable := fun _ => Raise TypeError |}.

(** The two [env] maps of the specification's example. *)
Definition env_defaults : dict := [("A", PInt 1); ("B", PInt 2)].
Definition env_stage : dict := [("B", PInt 3); ("C", PInt 4)].

Definition spawned (t : trace) : nat :=
  List.length (List.filter (fun e => match e with Spawn _ => true | _ => false end) t).

Definition newline : string := String (ascii_of_nat 10) "".

(** A system where every call succeeds and create-workflow answers 4711. *)
Definition good_system : System :=
  {| subprocess_run := fun _ _ => (0%Z, "4711" +:+ newline, "") |}.

(** A system where create-workflow succeeds with blank output. *)
Definition blank_system : System :=
  {| subprocess_run := fun _ _ => (0%Z, " " +:+ newline, "") |}.

(** A system where the third call (the second create-stage) fails. *)
Definition failing_system : System :=
  {| subprocess_run := fun t _ =>
       if Nat.eqb (spawned t) 2 then (1%Z, "", "no such jobscript")
       else (0%Z, "4711" +:+ newline, "") |}.

Definition real_args : Args :=
  {| dry_run := false; with_dune_setup := false;
     instance := None; url := None; verbose := false |}.

Definition sample_workflow : pyval :=
  PDict [("description", PStr "cosmics"); ("monte_carlo", PInt 10)].

Definition sample_defaults : pyval :=
  PDict [("repo", PStr "org/repo"); ("ref", PStr "main")].

Definition stage_entry (id jobscript : string) : pyval :=
  PDict [("id", PStr id); ("jobscript", PStr jobscript)].

(** Four stages, with ids that are not numbers in sequence. *)
Definition sample_stages : list pyval :=
  [stage_entry "gen" "gen.jobscript"; stage_entry "g4" "g4.jobscript";
   stage_entry "detsim" "detsim.jobscript"; stage_entry "reco" "reco.jobscript"].

Definition sample_cfg : pyval :=
  PDict [("workflow", sample_workflow); ("defaults", sample_defaults);
         ("stages", PList sample_stages)].

(** The same document with a second entry that has no [id]. *)
Definition bad_stage : pyval := PDict [("jobscript", PStr "g4.jobscript")].

Definition bad_cfg : pyval :=
  PDict [("workflow", sample_workflow); ("defaults", sample_defaults);
         ("stages", PList [stage_entry "gen" "gen.jobscript"; bad_stage])].

(** A store with a stage at 0, its [env] at 1, the defaults at 2 and their
    [env] at 3. *)
Definition sample_store : gmap nat Store.obj :=
  <[0 := Store.ODict [("id", Store.VStr "gen"); ("env", Store.VRef 1)]]>
  (<[1 := Store.ODict [("B", Store.VInt 3); ("C", Store.VInt 4)]]>
  (<[2 := Store.ODict [("repo", Store.VStr "org/repo"); ("env", Store.VRef 3)]]>
  (<[3 := Store.ODict [("A", Store.VInt 1); ("B", Store.VInt 2)]]> ∅))).

Definition sample_store_builtins : Store.StoreBuiltins :=
  {| Store.dict_of_iterable_s := fun _ _ => Raise TypeError |}.

Definition sample_config (stages : list pyval) : Config :=
  {| workflow := sample_workflow; defaults := sample_defaults; stages := stages |}.

Definition create_wf : list string :=
  ["justin"; "create-workflow"; "--description"; "cosmics"; "--monte-carlo"; "10"].

(** A merged stage record with both forms of output pattern. *)
Definition both_patterns : dict :=
  [("id", PStr "reco"); ("repo", PStr "org/repo"); ("ref", PStr "main");
   ("jobscript", PStr "reco.jobscript");
   ("output_patterns", PList [PStr "*_reco.root"; PStr "*_hist.root"]);
   ("output_pattern", PStr "*.txt"); ("env", PDict [])].

(** A merged stage record that names no software version. *)
Definition no_version : dict :=
  [("id", PStr "gen"); ("repo", PStr "org/repo"); ("ref", PStr "main");
   ("jobscript", PStr "gen.jobscript"); ("env", PDict [])].

End Sample.

(** ** Loading the document

    [load_config] reads the file and hands its text to a parser chosen by the
    suffix of the path.  The parsers are outside the script: [yaml] is [None]
    when PyYAML could not be imported. *)

Class Parsers : Type := {
  yaml_safe_load : option (string -> result pyval);
  json_loads : string -> result pyval
}.

(** How [load_config] ends: with the document, with what a parser raised, or
    with the [RuntimeError] about the missing PyYAML. *)
Inductive loaded : Type :=
| Loaded (cfg : pyval)
| ParserRaised (e : exn)
| RuntimeError (msg : string).

(** [c.lower()], for the characters below 256. *)
Definition lower_char (c : ascii) : ascii :=
  let n := nat_of_ascii c in
  if (Nat.leb 65 n && Nat.leb n 90) ||
     (Nat.leb 192 n && Nat.leb n 222 && negb (Nat.eqb n 215))
  then ascii_of_nat (n + 32)
  else c.

Fixpoint lower (s : string) : string :=
  match s with
  | EmptyString => EmptyString
  | String c s' => String (lower_char c) (lower s')
  end.

(** [except Exception] catches everything but [SystemExit]. *)
Definition is_exception (e : exn) : bool :=
  match e with
  | SystemExit _ => false
  | _ => true
  end.

Definition of_result (r : result pyval) : loaded :=
  match r with
  | Ok cfg => Loaded cfg
  | Raise e => ParserRaised e
  end.

(** [load_config], from the suffix of the path and the text of the file. *)
Definition load_config {parsers : Parsers} (suffix text : string) : loaded :=
  if String.eqb (lower suffix) ".yaml" || String.eqb (lower suffix) ".yml" then
    match yaml_safe_load with
    | None =>
        RuntimeError
          ("PyYAML is not installed, but config is YAML. "
           +:+ "Install it (e.g. pip install pyyaml) or use JSON.")
    | Some safe_load => of_result (safe_load text)
    end
  else if String.eqb (lower suffix) ".json" then
    of_result (json_loads text)
  else
    match yaml_safe_load with
    | Some safe_load =>
        match safe_load text with
        | Ok cfg => Loaded cfg
        | Raise e => if is_exception e then of_result (json_loads text)
                     else ParserRaised e
        end
    | None => of_result (json_loads text)
    end.

(** ** Vocabulary of the further statements *)

(** The events of one real call: the echoed line, then the process. *)
Definition call_events (with_dune_setup : bool) (cmd : list string) : list event :=
  [Stdout (echo_line cmd with_dune_setup);
   Spawn (build_justin_cmd cmd with_dune_setup)].


(** The three parts of the script location, as the stage loop resolves
    them. *)
Definition resolved (defaults st_merged : dict) (k : string) : pyval :=
  get st_merged k (get defaults k PNone).

(** More sample inputs. *)
Module Sample2.


(** A merged record with a string where the list of patterns should be. *)
Definition string_patterns : dict :=
  [("id", PStr "reco"); ("repo", PStr "org/repo"); ("ref", PStr "main");
   ("jobscript", PStr "reco.jobscript");
   ("output_patterns", PStr "*_reco.root"); ("env", PDict [])].

(** A merged record with an empty list of patterns and a single pattern. *)
Definition empty_patterns : dict :=
  [("id", PStr "reco"); ("repo", PStr "org/repo"); ("ref", PStr "main");
   ("jobscript", PStr "reco.jobscript");
   ("output_patterns", PList []); ("output_pattern", PStr "*_reco.root");
   ("env", PDict [])].

(** A system where every call is refused. *)
Definition refusing_system : System :=
  {| subprocess_run := fun _ _ => (1%Z, "", "permission denied") |}.

(** Systems where the call after [n] others fails. *)
Definition failing_after (n : nat) : System :=
  {| subprocess_run := fun t _ =>
       if Nat.eqb (Sample.spawned t) n then (1%Z, "", "service unavailable")
       else (0%Z, "4711" +:+ Sample.newline, "") |}.

Definition dry_args : Args :=
  {| dry_run := true; with_dune_setup := false;
     instance := None; url := None; verbose := false |}.

(** The defaults of the sample document, as a record. *)
Definition defaults_record : dict := [("repo", PStr "org/repo"); ("ref", PStr "main")].

(** A document whose second stage names no jobscript. *)
Definition no_jobscript_stage : pyval := PDict [("id", PStr "g4")].

Definition no_jobscript_cfg : pyval :=
  PDict [("workflow", Sample.sample_workflow); ("defaults", Sample.sample_defaults);
         ("stages", PList [Sample.stage_entry "gen" "gen.jobscript"; no_jobscript_stage])].

(** The command of a sample stage under workflow id 4711. *)
Definition stage_command (id jobscript : string) : string * list string :=
  (id,
   ["justin"; "create-stage"; "--workflow-id"; "4711"; "--stage-id"; id;
    "--jobscript-git"; "org/repo/" +:+ jobscript +:+ ":main"]
   ++ chars "--env DUNESW_VERSION=v10_17_01d00").

(** Parsers that accept one text each. *)
Definition sample_parsers : Parsers :=
  {| yaml_safe_load := Some (fun text => if String.eqb text "a: 1"
                                         then Ok (PDict [("a", PInt 1)])
                                         else Raise (ValueError "yaml"));
     json_loads := fun text => if String.eqb text "{}"
                               then Ok (PDict [])
                               else Raise (ValueError "json") |}.

End Sample2.

(** * Facts *)

(** ** Ordered maps *)

Section AssocFacts.
Context {V : Type}.
Implicit Types (d other : list (string * V)) (k : string) (v : V).

Lemma dict_get_set_eq k v d : dict_get k (dict_set k v d) = Some v.
Proof.
  induction d as [|[k' v'] d IH]; simpl.
  - now rewrite String.eqb_refl.
  - destruct (String.eqb k' k) eqn:E; simpl; rewrite E; auto.
Qed.

Lemma dict_get_set_ne k k' v d :
  k <> k' -> dict_get k' (dict_set k v d) = dict_get k' d.
Proof.
  intros Hne. induction d as [|[k0 v0] d IH]; simpl.
  - destruct (String.eqb_spec k k'); congruence.
  - destruct (String.eqb_spec k0 k) as [->|Hk]; simpl.
    + destruct (String.eqb_spec k k'); congruence.
    + destruct (String.eqb_spec k0 k'); auto.
Qed.

Lemma dict_get_None k d : dict_get k d = None <-> ~ List.In k (keys d).
Proof.
  induction d as [|[k' v'] d IH]; simpl.
  - tauto.
  - destruct (String.eqb_spec k' k) as [->|Hk].
    + split; [discriminate | tauto].
    + rewrite IH. tauto.
Qed.

Lemma dict_set_fresh k v d : dict_get k d = None -> dict_set k v d = d ++ [(k, v)].
Proof.
  induction d as [|[k' v'] d IH]; simpl; auto.
  destruct (String.eqb k' k); [discriminate|].
  intros H. now rewrite IH.
Qed.

Lemma dict_set_same k v d : dict_get k d = Some v -> dict_set k v d = d.
Proof.
  induction d as [|[k' v'] d IH]; simpl; [discriminate|].
  destruct (String.eqb k' k).
  - now intros [= ->].
  - intros H. now rewrite IH.
Qed.

Lemma keys_dict_set k v d :
  keys (dict_set k v d) = if dict_has k d then keys d else keys d ++ [k].
Proof.
  unfold dict_has. induction d as [|[k' v'] d IH]; simpl; auto.
  destruct (String.eqb k' k); simpl; auto.
  rewrite IH. now destruct (dict_get k d).
Qed.

Lemma dict_get_remove_eq k d : dict_get k (dict_remove k d) = None.
Proof.
  induction d as [|[k' v'] d IH]; simpl; auto.
  destruct (String.eqb k' k) eqn:E; simpl; auto. now rewrite E.
Qed.

Lemma dict_get_remove_ne k k' d :
  k <> k' -> dict_get k' (dict_remove k d) = dict_get k' d.
Proof.
  intros Hne. induction d as [|[k0 v0] d IH]; simpl; auto.
  destruct (String.eqb_spec k0 k) as [->|Hk]; simpl.
  - destruct (String.eqb_spec k k'); congruence.
  - now rewrite IH.
Qed.

Lemma dict_update_cons d k v other :
  dict_update d ((k, v) :: other) = dict_update (dict_set k v d) other.
Proof. reflexivity. Qed.

(** After [d.update(other)] a key of [other] has the value of [other], and
    any other key the value it had. *)
Lemma dict_get_update k d other :
  dict_wf other ->
  dict_get k (dict_update d other) =
  match dict_get k other with
  | Some v => Some v
  | None => dict_get k d
  end.
Proof.
  revert d. induction other as [|[k' v'] other IH]; intros d Hwf; auto.
  rewrite dict_update_cons.
  inversion Hwf as [|? ? Hnotin Hwf']; subst.
  rewrite IH by exact Hwf'. simpl.
  destruct (String.eqb_spec k' k) as [->|Hk].
  - apply dict_get_None in Hnotin. rewrite Hnotin. apply dict_get_set_eq.
  - now rewrite dict_get_set_ne.
Qed.

Lemma dict_update_app d other :
  dict_wf (d ++ other) -> dict_update d other = d ++ other.
Proof.
  revert d. induction other as [|[k v] other IH]; intros d Hwf.
  - simpl. now rewrite app_nil_r.
  - rewrite dict_update_cons.
    assert (Hfresh : dict_get k d = None).
    { apply dict_get_None. unfold dict_wf, keys in Hwf.
      rewrite map_app in Hwf. simpl in Hwf.
      apply List.NoDup_remove_2 in Hwf. intros Hin. apply Hwf.
      apply List.in_or_app. now left. }
    rewrite dict_set_fresh by exact Hfresh.
    rewrite IH; rewrite <- app_assoc; simpl; auto.
Qed.

(** [{}.update(d)] gives the entries of [d], in the order of [d]. *)
Lemma dict_update_nil_l d : dict_wf d -> dict_update [] d = d.
Proof. intros Hwf. now rewrite dict_update_app. Qed.

Lemma dict_update_nil_r d : dict_update d [] = d.
Proof. reflexivity. Qed.

End AssocFacts.

(** ** [merge_defaults] *)

Ltac solve_wf :=
  unfold dict_wf, keys; simpl;
  repeat (constructor; [simpl; intuition discriminate|]); constructor.

Section MergeFacts.
Context {builtins : Builtins}.

Lemma merge_defaults_unfold (stage defaults : dict) :
  merge_defaults (PDict stage) (PDict defaults) =
  (env_d <- env_of defaults ;;
   env_s <- env_of stage ;;
   Ok (dict_set "env" (PDict (dict_update env_d env_s))
         (dict_update defaults stage)))%result.
Proof. reflexivity. Qed.

Lemma env_of_dict (d es : dict) :
  dict_get "env" d = Some (PDict es) -> env_of d = Ok es.
Proof.
  intros H. unfold env_of, get, py_or. rewrite H.
  now destruct es.
Qed.

Lemma env_of_falsy (d : dict) (v : pyval) :
  dict_get "env" d = Some v -> truthy v = false -> env_of d = Ok [].
Proof.
  intros H Hv. unfold env_of, get, py_or. now rewrite H, Hv.
Qed.

Lemma env_of_absent (d : dict) : dict_get "env" d = None -> env_of d = Ok [].
Proof.
  intros H. unfold env_of, get, py_or. now rewrite H.
Qed.

Lemma env_of_missing (d : dict) : env_missing d -> env_of d = Ok [].
Proof.
  intros [H|H]; [now apply env_of_absent | now apply (env_of_falsy d PNone)].
Qed.

(** Whatever it returns, [merge_defaults] has put a dictionary under
    [env]. *)
Lemma merge_defaults_env (stage defaults merged : dict) :
  merge_defaults (PDict stage) (PDict defaults) = Ok merged ->
  exists env_d env_s,
    env_of defaults = Ok env_d /\ env_of stage = Ok env_s /\
    merged = dict_set "env" (PDict (dict_update env_d env_s))
               (dict_update defaults stage).
Proof.
  rewrite merge_defaults_unfold.
  destruct (env_of defaults) as [env_d|]; [|discriminate].
  destruct (env_of stage) as [env_s|]; [|discriminate].
  simpl. intros [= <-]. now exists env_d, env_s.
Qed.

(** C5: the merged [env] is the defaults' [env] updated with the stage's: a
    key of the stage's [env] has the stage's value, any other key the
    defaults' value. *)
Theorem merge_defaults_env_precedence (stage defaults es ed : dict) :
  dict_get "env" stage = Some (PDict es) ->
  dict_get "env" defaults = Some (PDict ed) ->
  dict_wf es ->
  exists merged,
    merge_defaults (PDict stage) (PDict defaults) = Ok merged /\
    dict_get "env" merged = Some (PDict (dict_update ed es)) /\
    forall k,
      dict_get k (dict_update ed es) =
      match dict_get k es with
      | Some v => Some v
      | None => dict_get k ed
      end.
Proof.
  intros Hs Hd Hwf.
  rewrite merge_defaults_unfold, (env_of_dict _ _ Hd), (env_of_dict _ _ Hs).
  eexists. split; [reflexivity|]. split.
  - apply dict_get_set_eq.
  - intros k. now apply dict_get_update.
Qed.

(** C6, as the code has it: against empty defaults every key of the stage
    keeps its value and its place; [env] is bound to a copy of the stage's
    [env] when that is a mapping, and to an empty mapping when the stage has
    no [env] (the key is then added last) or an [env] that is false. *)
Theorem merge_defaults_empty_defaults (stage : dict) :
  dict_wf stage ->
  (forall es, dict_get "env" stage = Some (PDict es) -> dict_wf es ->
     merge_defaults (PDict stage) (PDict []) = Ok stage) /\
  (forall v, dict_get "env" stage = Some v -> truthy v = false ->
     merge_defaults (PDict stage) (PDict []) = Ok (dict_set "env" (PDict []) stage)) /\
  (dict_get "env" stage = None ->
     merge_defaults (PDict stage) (PDict []) = Ok (stage ++ [("env", PDict [])])) /\
  (forall merged, merge_defaults (PDict stage) (PDict []) = Ok merged ->
     (exists env, merged = dict_set "env" (PDict env) stage) /\
     forall k, k <> "env" -> dict_get k merged = dict_get k stage).
Proof.
  intros Hwf. rewrite merge_defaults_unfold.
  rewrite (env_of_absent []) by reflexivity.
  rewrite (dict_update_nil_l stage Hwf).
  split; [|split; [|split; [|intros merged H; split]]].
  - intros es Hs Hes. rewrite (env_of_dict _ _ Hs). simpl.
    rewrite (dict_update_nil_l es Hes). now rewrite dict_set_same.
  - intros v Hs Hv. now rewrite (env_of_falsy _ _ Hs Hv).
  - intros Hs. rewrite (env_of_absent _ Hs). simpl.
    now rewrite dict_set_fresh.
  - destruct (env_of stage) as [env_s|]; [|discriminate].
    simpl in *. injection H as <-. eauto.
  - intros k Hk. destruct (env_of stage) as [env_s|]; [|discriminate].
    simpl in *. injection H as <-. apply dict_get_set_ne. congruence.
Qed.

(** C10: the record [merge_defaults] returns has a dictionary under [env];
    an [env] that is missing or null counts as empty, on either side. *)
Theorem merge_defaults_env_is_dict (stage defaults : dict) :
  (forall merged, merge_defaults (PDict stage) (PDict defaults) = Ok merged ->
     exists env, dict_get "env" merged = Some (PDict env)) /\
  (env_missing stage -> env_missing defaults ->
     exists merged, merge_defaults (PDict stage) (PDict defaults) = Ok merged /\
                    dict_get "env" merged = Some (PDict [])) /\
  (forall ed, env_missing stage -> dict_get "env" defaults = Some (PDict ed) ->
     exists merged, merge_defaults (PDict stage) (PDict defaults) = Ok merged /\
                    dict_get "env" merged = Some (PDict ed)) /\
  (forall es, dict_get "env" stage = Some (PDict es) -> dict_wf es ->
     env_missing defaults ->
     exists merged, merge_defaults (PDict stage) (PDict defaults) = Ok merged /\
                    dict_get "env" merged = Some (PDict es)).
Proof.
  repeat split.
  - intros merged H. apply merge_defaults_env in H as (env_d & env_s & _ & _ & ->).
    eexists. apply dict_get_set_eq.
  - intros Hs Hd. rewrite merge_defaults_unfold.
    rewrite (env_of_missing _ Hs), (env_of_missing _ Hd).
    eexists. split; [reflexivity|]. apply dict_get_set_eq.
  - intros ed Hs Hd. rewrite merge_defaults_unfold.
    rewrite (env_of_missing _ Hs), (env_of_dict _ _ Hd).
    eexists. split; [reflexivity|]. apply dict_get_set_eq.
  - intros es Hs Hwf Hd. rewrite merge_defaults_unfold.
    rewrite (env_of_missing _ Hd), (env_of_dict _ _ Hs).
    eexists. split; [reflexivity|]. simpl.
    rewrite (dict_update_nil_l es Hwf). apply dict_get_set_eq.
Qed.

End MergeFacts.

Import Sample.

Lemma merge_defaults_env_precedence_witness :
  dict_wf env_stage /\
  exists merged,
    @merge_defaults sample_builtins
      (PDict [("id", PStr "1"); ("env", PDict env_stage)])
      (PDict [("repo", PStr "org/repo"); ("env", PDict env_defaults)]) = Ok merged /\
    dict_get "env" merged = Some (PDict [("A", PInt 1); ("B", PInt 3); ("C", PInt 4)]).
Proof.
  assert (Hwf : dict_wf env_stage) by solve_wf.
  split; [exact Hwf|].
  destruct (@merge_defaults_env_precedence sample_builtins
              [("id", PStr "1"); ("env", PDict env_stage)]
              [("repo", PStr "org/repo"); ("env", PDict env_defaults)]
              env_stage env_defaults eq_refl eq_refl Hwf) as (merged & Hm & Henv & _).
  exists merged. split; [exact Hm | exact Henv].
Defined.

Lemma merge_defaults_empty_defaults_witness :
  @merge_defaults sample_builtins
    (PDict [("id", PStr "1"); ("env", PDict env_stage)]) (PDict []) =
  Ok [("id", PStr "1"); ("env", PDict env_stage)].
Proof.
  assert (Hwf : dict_wf [("id", PStr "1"); ("env", PDict env_stage)]) by solve_wf.
  assert (Hes : dict_wf env_stage) by solve_wf.
  exact (proj1 (@merge_defaults_empty_defaults sample_builtins _ Hwf)
           env_stage eq_refl Hes).
Defined.

(** Against C6 as stated: a stage without [env] comes back with one more
    key. *)
Lemma merge_defaults_adds_env :
  ~ (forall (builtins : Builtins) (stage : dict),
       dict_wf stage ->
       exists merged,
         merge_defaults (PDict stage) (PDict []) = Ok merged /\
         keys merged = keys stage).
Proof.
  intros H.
  destruct (H sample_builtins [("id", PStr "1")]) as (merged & Hm & Hk);
    [solve_wf|].
  cbv in Hm. injection Hm as <-. discriminate Hk.
Qed.

Lemma merge_defaults_env_is_dict_witness :
  exists merged,
    @merge_defaults sample_builtins
      (PDict [("id", PStr "1"); ("env", PNone)]) (PDict [("repo", PStr "org/repo")])
      = Ok merged /\
    dict_get "env" merged = Some (PDict []).
Proof.
  apply (proj1 (proj2 (@merge_defaults_env_is_dict sample_builtins
           [("id", PStr "1"); ("env", PNone)] [("repo", PStr "org/repo")]))).
  - right. reflexivity.
  - left. reflexivity.
Defined.

(** ** Effects *)

Section StxFacts.
Context {St A B : Type}.

Lemma bind_ok (m : stx St A) (k : A -> stx St B) s a s' :
  m s = (Ok a, s') -> bind m k s = k a s'.
Proof. unfold bind. now intros ->. Qed.

Lemma bind_raise (m : stx St A) (k : A -> stx St B) s e s' :
  m s = (Raise e, s') -> bind m k s = (Raise e, s').
Proof. unfold bind. now intros ->. Qed.

Lemma bind_lift_ok (a : A) (k : A -> stx St B) s :
  bind (lift (Ok a)) k s = k a s.
Proof. reflexivity. Qed.

Lemma bind_lift_raise (e : exn) (k : A -> stx St B) s :
  bind (lift (Raise e)) k s = (Raise e, s).
Proof. reflexivity. Qed.

Lemma bind_assoc {C} (m : stx St A) (k1 : A -> stx St B) (k2 : B -> stx St C) s :
  bind (bind m k1) k2 s = bind m (fun a => bind (k1 a) k2) s.
Proof. unfold bind. now destruct (m s) as [[a|e] s']. Qed.

Lemma bind_ext (m : stx St A) (k1 k2 : A -> stx St B) s :
  (forall a s', k1 a s' = k2 a s') -> bind m k1 s = bind m k2 s.
Proof. intros H. unfold bind. destruct (m s) as [[a|e] s']; auto. Qed.

Lemma bind_cong (m1 m2 : stx St A) (k : A -> stx St B) s :
  (forall s', m1 s' = m2 s') -> bind m1 k s = bind m2 k s.
Proof. intros H. unfold bind. now rewrite H. Qed.

End StxFacts.

(** ** [run_cmd] and [check_call] *)

Section RunFacts.
Context {builtins : Builtins} {system : System}.

Lemma run_cmd_dry argv ws capture t :
  run_cmd argv true ws capture t = (Ok Dummy, t ++ [Stdout (echo_line argv ws)]).
Proof. reflexivity. Qed.

(** A real call echoes the command line, spawns the process and returns what
    the process gave. *)
Lemma run_cmd_real argv ws capture t :
  exists cp,
    run_cmd argv false ws capture t =
    (Ok cp, t ++ [Stdout (echo_line argv ws); Spawn (build_justin_cmd argv ws)]).
Proof.
  unfold run_cmd, bind, print, emit, spawn. simpl.
  destruct (subprocess_run _ _) as [[rc out] err].
  rewrite <- app_assoc. simpl. eauto.
Qed.

Lemma check_call_ok cp msg code t :
  failed cp = false -> check_call cp msg code t = (Ok tt, t).
Proof. unfold check_call. now intros ->. Qed.

Lemma check_call_failed cp msg code t :
  failed cp = true ->
  check_call cp msg code t =
  (Raise (SystemExit code), t ++ Stderr msg :: stderr_lines cp).
Proof.
  unfold check_call, stderr_lines. intros ->.
  unfold bind, eprint, emit, sys_exit, raise, lift, ret.
  destruct (stderr cp) as [err|]; [destruct (nonempty err)|]; simpl;
    rewrite <- ?app_assoc; reflexivity.
Qed.

Lemma failed_iff cp : failed cp = true <-> returncode cp <> 0%Z.
Proof.
  unfold failed. destruct (Z.eqb_spec (returncode cp) 0); simpl; split;
    congruence.
Qed.

(** C8: under dry-run [run_cmd] echoes the command line and returns status 0
    with empty output, whatever the system would have answered; the check
    that follows a call lets such a result pass. *)
Theorem run_cmd_dry_run (argv : list string) (ws capture : bool) (t : trace) :
  run_cmd argv true ws capture t = (Ok Dummy, t ++ [Stdout (echo_line argv ws)]) /\
  returncode Dummy = 0%Z /\ stdout Dummy = Some "" /\ stderr Dummy = Some "" /\
  (forall msg code t', check_call Dummy msg code t' = (Ok tt, t')) /\
  (forall other : System,
     @run_cmd other argv true ws capture t = run_cmd argv true ws capture t).
Proof. repeat split. Qed.

End RunFacts.

(** ** The stage loop and [main] *)

Lemma rbind_ok_inv {A B} (r : result A) (k : A -> result B) b :
  rbind r k = Ok b -> exists a, r = Ok a /\ k a = Ok b.
Proof. destruct r as [a|e]; simpl; [eauto | discriminate]. Qed.

Ltac rbind_inv H a E :=
  apply rbind_ok_inv in H as (a & E & H); cbv beta zeta in H.

Section MainFacts.
Context {builtins : Builtins} {system : System}.

(** The stage id of a built command is [as_str] of the [id] of the merged
    record. *)
Lemma create_stage_cmd_id g wfid d st_merged stage_id cmd :
  create_stage_cmd g wfid d st_merged = Ok (stage_id, cmd) ->
  exists v, dict_get "id" st_merged = Some v /\ stage_id = as_str v.
Proof.
  intros H. unfold create_stage_cmd in H.
  rbind_inv H idv Eid. rbind_inv H drepo E1. rbind_inv H dref E2.
  rbind_inv H u1 E3. rbind_inv H u2 E4. rbind_inv H u3 E5.
  rbind_inv H env E6. rbind_inv H ops E7. rbind_inv H sites E8.
  injection H as <- _. exists idv. split; [|reflexivity].
  simpl in Eid. destruct (dict_get "id" st_merged); congruence.
Qed.

(** ... which is the [id] the stage entry was given. *)
Lemma stage_cmd_id g wfid d s v stage_id cmd :
  dict_wf s -> dict_get "id" s = Some v ->
  stage_cmd g wfid d (PDict s) = Ok (stage_id, cmd) ->
  stage_id = as_str v.
Proof.
  intros Hwf Hid H. unfold stage_cmd in H.
  rbind_inv H u1 E1. rbind_inv H has_id E2. rbind_inv H u2 E3.
  rbind_inv H st_merged Em.
  apply create_stage_cmd_id in H as (v' & Hv' & ->). f_equal.
  destruct d as [| | | | |dd];
    try (unfold merge_defaults in Em; simpl in Em;
         destruct (dict_of_iterable _); discriminate).
  apply merge_defaults_env in Em as (env_d & env_s & _ & _ & ->).
  rewrite dict_get_set_ne in Hv' by discriminate.
  rewrite (dict_get_update _ _ _ Hwf), Hid in Hv'. congruence.
Qed.

Lemma create_stages_cons args g wfid d st rest t :
  create_stages args g wfid d (st :: rest) t =
  (sc <- lift (stage_cmd g wfid d st) ;;
   cp <- run_cmd (snd sc) (dry_run args) (with_dune_setup args) true ;;
   check_call cp ("ERROR: create-stage failed for stage " +:+ fst sc +:+ ".") 3 ;;
   create_stages args g wfid d rest)%stx t.
Proof. reflexivity. Qed.

(** The loop over [pre ++ rest] is the loop over [pre], then the loop over
    [rest]. *)
Lemma create_stages_app args g wfid d pre rest t :
  create_stages args g wfid d (pre ++ rest) t =
  (create_stages args g wfid d pre ;; create_stages args g wfid d rest)%stx t.
Proof.
  revert t. induction pre as [|st pre IH]; intros t; [reflexivity|].
  rewrite <- app_comm_cons. simpl.
  rewrite !bind_assoc.
  apply bind_ext; intros sc t1. rewrite !bind_assoc.
  apply bind_ext; intros cp t2. rewrite !bind_assoc.
  apply bind_ext; intros _ t3. apply IH.
Qed.

Lemma stage_cmd_bad g wfid d st :
  bad_entry st = true -> stage_cmd g wfid d st = Raise (ValueError (entry_error st)).
Proof.
  unfold stage_cmd, bad_entry, entry_error.
  destruct st as [| | | | |s]; try reflexivity.
  simpl. now intros ->%negb_true_iff.
Qed.

Lemma main_unfold args cfg c t :
  read_config cfg = Ok c ->
  main args cfg t =
  (wfid <- create_workflow args (workflow c) ;;
   create_stages args (justin_global args) wfid (defaults c) (stages c) ;;
   submit_workflow args wfid)%stx t.
Proof. unfold main. intros ->. reflexivity. Qed.

Lemma create_workflow_unfold args w create_wf t cp t1 :
  create_wf_cmd args w = Ok create_wf ->
  run_cmd create_wf (dry_run args) (with_dune_setup args) true t = (Ok cp, t1) ->
  failed cp = false ->
  create_workflow args w t =
  (let wfid := if negb (dry_run args)
               then strip (match stdout cp with Some out => out | None => "" end)
               else "DRYRUN_WFID" in
   lift (require (nonempty wfid)
           "Could not parse workflow id from create-workflow output.") ;;
   print ("WFID=" +:+ wfid) ;;
   ret wfid)%stx t1.
Proof.
  intros Hcmd Hrun Hok. unfold create_workflow. rewrite Hcmd, bind_lift_ok.
  rewrite (bind_ok _ _ _ _ _ Hrun).
  now rewrite (bind_ok _ _ _ _ _ (check_call_ok cp _ _ t1 Hok)).
Qed.

(** C1, as the code has it: in a real run, when create-workflow returns
    status 0 and its output is blank, [main] ends right after that call with
    a [ValueError]; the interpreter then exits with status 1. *)
Theorem blank_workflow_id_raises args cfg c create_wf t cp t1 :
  dry_run args = false ->
  read_config cfg = Ok c ->
  create_wf_cmd args (workflow c) = Ok create_wf ->
  run_cmd create_wf (dry_run args) (with_dune_setup args) true t = (Ok cp, t1) ->
  returncode cp = 0%Z ->
  strip (match stdout cp with Some out => out | None => "" end) = "" ->
  main args cfg t =
    (Raise (ValueError "Could not parse workflow id from create-workflow output."), t1) /\
  t1 = t ++ [Stdout (echo_line create_wf (with_dune_setup args));
             Spawn (build_justin_cmd create_wf (with_dune_setup args))] /\
  exit_status (fst (main args cfg t)) = 1%Z.
Proof.
  intros Hdry Hcfg Hcmd Hrun Hrc Hblank.
  assert (Hok : failed cp = false).
  { unfold failed. now rewrite Hrc. }
  assert (Hmain : main args cfg t =
    (Raise (ValueError "Could not parse workflow id from create-workflow output."), t1)).
  { rewrite (main_unfold _ _ _ _ Hcfg).
    apply bind_raise.
    rewrite (create_workflow_unfold _ _ _ _ _ _ Hcmd Hrun Hok).
    rewrite Hdry. simpl. rewrite Hblank. reflexivity. }
  split; [exact Hmain|]. split.
  - rewrite Hdry in Hrun.
    destruct (run_cmd_real create_wf (with_dune_setup args) true t) as [cp' Hreal].
    rewrite Hreal in Hrun. now injection Hrun as _ <-.
  - now rewrite Hmain.
Qed.

(** C3, as the code has it: the entries are checked inside the stage loop.
    A run over a stage list with a bad entry is the create-workflow step, the
    loop over the entries before it, and the [ValueError] of that entry: no
    command of that entry or of a later one is built, nothing is submitted,
    and the run never ends well. *)
Theorem bad_stage_entry_raises args cfg c pre st post t :
  read_config cfg = Ok c ->
  stages c = pre ++ st :: post ->
  bad_entry st = true ->
  main args cfg t =
    (wfid <- create_workflow args (workflow c) ;;
     create_stages args (justin_global args) wfid (defaults c) pre ;;
     raise (ValueError (entry_error st)))%stx t /\
  (exists e, fst (main args cfg t) = Raise e) /\
  (forall wfid t1 t2,
     create_workflow args (workflow c) t = (Ok wfid, t1) ->
     create_stages args (justin_global args) wfid (defaults c) pre t1 = (Ok tt, t2) ->
     main args cfg t = (Raise (ValueError (entry_error st)), t2)).
Proof.
  intros Hcfg Hst Hbad.
  assert (Hmain : main args cfg t =
    (wfid <- create_workflow args (workflow c) ;;
     create_stages args (justin_global args) wfid (defaults c) pre ;;
     raise (ValueError (entry_error st)))%stx t).
  { rewrite (main_unfold _ _ _ _ Hcfg), Hst.
    apply bind_ext; intros wfid t1.
    rewrite (bind_cong _ _ _ _ (create_stages_app _ _ _ _ _ _)), bind_assoc.
    apply bind_ext; intros _ t2.
    rewrite (bind_raise _ _ _ (ValueError (entry_error st)) t2); [reflexivity|].
    now rewrite create_stages_cons, (stage_cmd_bad _ _ _ _ Hbad). }
  split; [exact Hmain|]. split.
  - rewrite Hmain. unfold bind.
    destruct (create_workflow args (workflow c) t) as [[wfid|e] t1]; [|eauto].
    destruct (create_stages _ _ _ _ pre t1) as [[[]|e] t2]; simpl; eauto.
  - intros wfid t1 t2 Hwf Hpre. rewrite Hmain.
    rewrite (bind_ok _ _ _ _ _ Hwf). now rewrite (bind_ok _ _ _ _ _ Hpre).
Qed.

(** C4: when the create-stage call of a stage returns a status other than
    0, [main] ends there with [sys.exit(3)]: after that call the trace only
    gains the error line, which names the stage id, and the captured
    standard error. *)
Theorem failing_stage_stops_run args cfg c pre st post t wfid t1 t2 stage_id cmd cp t3 :
  read_config cfg = Ok c ->
  stages c = pre ++ st :: post ->
  create_workflow args (workflow c) t = (Ok wfid, t1) ->
  create_stages args (justin_global args) wfid (defaults c) pre t1 = (Ok tt, t2) ->
  stage_cmd (justin_global args) wfid (defaults c) st = Ok (stage_id, cmd) ->
  run_cmd cmd (dry_run args) (with_dune_setup args) true t2 = (Ok cp, t3) ->
  returncode cp <> 0%Z ->
  main args cfg t =
    (Raise (SystemExit 3),
     t3 ++ Stderr ("ERROR: create-stage failed for stage " +:+ stage_id +:+ ".")
           :: stderr_lines cp) /\
  exit_status (fst (main args cfg t)) = 3%Z /\
  t3 = t2 ++ [Stdout (echo_line cmd (with_dune_setup args));
              Spawn (build_justin_cmd cmd (with_dune_setup args))] /\
  (forall s v, st = PDict s -> dict_wf s -> dict_get "id" s = Some v ->
     stage_id = as_str v).
Proof.
  intros Hcfg Hst Hwf Hpre Hcmd Hrun Hrc.
  assert (Hmain : main args cfg t =
    (Raise (SystemExit 3),
     t3 ++ Stderr ("ERROR: create-stage failed for stage " +:+ stage_id +:+ ".")
           :: stderr_lines cp)).
  { rewrite (main_unfold _ _ _ _ Hcfg), Hst, (bind_ok _ _ _ _ _ Hwf).
    apply bind_raise.
    rewrite create_stages_app, (bind_ok _ _ _ _ _ Hpre), create_stages_cons.
    rewrite Hcmd, bind_lift_ok. simpl fst. simpl snd.
    rewrite (bind_ok _ _ _ _ _ Hrun).
    apply bind_raise, check_call_failed. now apply failed_iff. }
  split; [exact Hmain|]. split; [now rewrite Hmain|]. split.
  - destruct (dry_run args).
    + rewrite run_cmd_dry in Hrun. injection Hrun as <- _. now elim Hrc.
    + destruct (run_cmd_real cmd (with_dune_setup args) true t2) as [cp' Hreal].
      rewrite Hreal in Hrun. now injection Hrun as _ <-.
  - intros s v -> Hs Hid. exact (stage_cmd_id _ _ _ _ _ _ _ Hs Hid Hcmd).
Qed.

End MainFacts.

(** ** The [create-stage] command *)

Section CommandFacts.
Context {builtins : Builtins}.

(** The default software version goes into the command one character per
    token, so none of its tokens is [--env]. *)
Lemma dunesw_flags_default (st_merged : dict) :
  set_not_none st_merged "dunesw_version" = None ->
  dunesw_flags st_merged = chars "--env DUNESW_VERSION=v10_17_01d00" /\
  ~ List.In "--env" (dunesw_flags st_merged).
Proof.
  intros H. unfold dunesw_flags. rewrite H. split; [reflexivity|].
  cbv. intuition discriminate.
Qed.

Ltac agree_on Hag :=
  rewrite ?Hag by (simpl; intros [?|[?|[]]]; discriminate).

(** A built command is the tokens before the output-pattern block, the
    block, and the tokens after it; on a record that differs in
    [output_patterns] and [output_pattern] only, only the block changes. *)
Lemma create_stage_cmd_block g wfid d st stage_id cmd :
  create_stage_cmd g wfid d st = Ok (stage_id, cmd) ->
  exists pre ops post,
    output_pattern_flags stage_id st = Ok ops /\
    cmd = pre ++ ops ++ post /\
    forall st' ops',
      agree_except ["output_patterns"; "output_pattern"] st st' ->
      output_pattern_flags stage_id st' = Ok ops' ->
      create_stage_cmd g wfid d st' = Ok (stage_id, pre ++ ops' ++ post).
Proof.
  intros H. unfold create_stage_cmd in H.
  rbind_inv H idv Eid. rbind_inv H drepo E1. rbind_inv H dref E2.
  rbind_inv H u1 E3. rbind_inv H u2 E4. rbind_inv H u3 E5.
  rbind_inv H env E6. rbind_inv H ops E7. rbind_inv H sites E8.
  injection H as <- <-.
  exists (g ++
     ["create-stage";
      "--workflow-id"; as_str (PStr wfid);
      "--stage-id"; as_str idv;
      "--jobscript-git";
      py_str (get st "repo" drepo) +:+ "/" +:+ py_str (get st "jobscript" PNone)
        +:+ ":" +:+ py_str (get st "ref" dref)] ++
     resource_flags st ++ env ++ tarfile_flags st ++ dunesw_flags st ++
     fhicl_flags st ++ next_stage_flags st),
    ops, (rse_flags st ++ lifetime_flags st ++ sites ++ classad_flags st).
  split; [exact E7|]. split.
  { rewrite <- !app_assoc. reflexivity. }
  intros st' ops' Hag Hops. unfold agree_except in Hag.
  assert (Hid : py_getitem (PDict st') "id" = Ok idv).
  { simpl in *. now agree_on Hag. }
  assert (Hres : resource_flags st' = resource_flags st).
  { unfold resource_flags, get. now agree_on Hag. }
  assert (Henv : env_flags (as_str idv) st' = Ok env).
  { rewrite <- E6. unfold env_flags, get. now agree_on Hag. }
  assert (Htar : tarfile_flags st' = tarfile_flags st).
  { unfold tarfile_flags, set_not_none. now agree_on Hag. }
  assert (Hver : dunesw_flags st' = dunesw_flags st).
  { unfold dunesw_flags, set_not_none. now agree_on Hag. }
  assert (Hfcl : fhicl_flags st' = fhicl_flags st).
  { unfold fhicl_flags, set_not_none. now agree_on Hag. }
  assert (Hnext : next_stage_flags st' = next_stage_flags st).
  { unfold next_stage_flags, set_truthy. now agree_on Hag. }
  assert (Hrse : rse_flags st' = rse_flags st).
  { unfold rse_flags, set_truthy. now agree_on Hag. }
  assert (Hlife : lifetime_flags st' = lifetime_flags st).
  { unfold lifetime_flags, set_not_none. now agree_on Hag. }
  assert (Hsites : site_flags (as_str idv) st' = Ok sites).
  { rewrite <- E8. unfold site_flags, set_truthy. now agree_on Hag. }
  assert (Hca : classad_flags st' = classad_flags st).
  { unfold classad_flags, set_truthy. now agree_on Hag. }
  unfold create_stage_cmd. rewrite Hid. simpl rbind at 1.
  rewrite E1, E2. simpl rbind at 1. simpl rbind at 1.
  unfold get in E3, E4, E5 |- *. agree_on Hag.
  rewrite E3, E4, E5. cbn [rbind].
  rewrite Henv, Hops, Hsites. cbn [rbind].
  rewrite Hres, Htar, Hver, Hfcl, Hnext, Hrse, Hlife, Hca.
  rewrite <- !app_assoc. reflexivity.
Qed.

(** C7: with a non-empty [output_patterns] list and a non-empty
    [output_pattern] string, the command holds one [--output-pattern] flag per
    element of the list, in order, and nothing for the string: without the two
    fields the command is the same minus that block, and the string may be
    changed or removed without changing the command. *)
Theorem output_patterns_take_precedence g wfid d st pats s stage_id cmd :
  dict_get "output_patterns" st = Some (PList pats) -> pats <> [] ->
  dict_get "output_pattern" st = Some (PStr s) -> s <> "" ->
  create_stage_cmd g wfid d st = Ok (stage_id, cmd) ->
  let flags := flat_map (fun pat => ["--output-pattern"; as_str pat]) pats in
  output_pattern_flags stage_id st = Ok flags /\
  (exists pre post,
     cmd = pre ++ flags ++ post /\
     create_stage_cmd g wfid d
       (dict_remove "output_patterns" (dict_remove "output_pattern" st))
     = Ok (stage_id, pre ++ post)) /\
  (forall v, create_stage_cmd g wfid d (dict_set "output_pattern" v st)
             = Ok (stage_id, cmd)) /\
  create_stage_cmd g wfid d (dict_remove "output_pattern" st) = Ok (stage_id, cmd).
Proof.
  intros Hpats Hne Hpat Hs H flags.
  assert (Hflags : forall st', dict_get "output_patterns" st' = Some (PList pats) ->
            output_pattern_flags stage_id st' = Ok flags).
  { intros st' Hst'. unfold output_pattern_flags, set_truthy. rewrite Hst'.
    destruct pats; [congruence | reflexivity]. }
  destruct (create_stage_cmd_block _ _ _ _ _ _ H) as (pre & ops & post & Hops & -> & Hother).
  rewrite (Hflags st Hpats) in Hops. injection Hops as <-.
  split; [now apply Hflags|]. split; [|split].
  - exists pre, post. split; [reflexivity|].
    rewrite (Hother _ []); [reflexivity| |].
    + intros k Hk. rewrite !dict_get_remove_ne; auto; simpl in Hk; intuition.
    + unfold output_pattern_flags, set_truthy.
      rewrite dict_get_remove_eq.
      rewrite dict_get_remove_ne, dict_get_remove_eq by discriminate.
      reflexivity.
  - intros v. apply Hother.
    + intros k Hk. apply dict_get_set_ne. simpl in Hk. intuition.
    + apply Hflags. now rewrite dict_get_set_ne by discriminate.
  - apply Hother.
    + intros k Hk. apply dict_get_remove_ne. simpl in Hk. intuition.
    + apply Hflags. now rewrite dict_get_remove_ne by discriminate.
Qed.

(** C2, on the code: for a stage that names no software version, the
    command holds the text of the default flag one character per token, and
    nowhere [--env] followed by [DUNESW_VERSION=v10_17_01d00]. *)
Theorem default_version_split_in_characters :
  create_stage_cmd ["justin"] "4711" Sample.sample_defaults Sample.no_version =
  Ok ("gen",
      ["justin"; "create-stage"; "--workflow-id"; "4711"; "--stage-id"; "gen";
       "--jobscript-git"; "org/repo/gen.jobscript:main";
       "-"; "-"; "e"; "n"; "v"; " "; "D"; "U"; "N"; "E"; "S"; "W"; "_";
       "V"; "E"; "R"; "S"; "I"; "O"; "N"; "="; "v"; "1"; "0"; "_"; "1"; "7";
       "_"; "0"; "1"; "d"; "0"; "0"]) /\
  match create_stage_cmd ["justin"] "4711" Sample.sample_defaults Sample.no_version with
  | Ok (_, cmd) => adjacent "--env" "DUNESW_VERSION=v10_17_01d00" cmd = false
  | Raise _ => False
  end.
Proof. split; vm_compute; reflexivity. Qed.

End CommandFacts.

(** ** The theorems at the sample inputs *)

Import Sample.

Lemma blank_workflow_id_raises_witness :
  @main sample_builtins blank_system real_args sample_cfg [] =
  (Raise (ValueError "Could not parse workflow id from create-workflow output."),
   [Stdout "+ justin create-workflow --description cosmics --monte-carlo 10";
    Spawn create_wf]).
Proof.
  destruct (@blank_workflow_id_raises sample_builtins blank_system
              real_args sample_cfg (sample_config sample_stages) create_wf []
              {| returncode := 0; stdout := Some (" " +:+ newline); stderr := Some "" |}
              [Stdout "+ justin create-workflow --description cosmics --monte-carlo 10";
               Spawn create_wf]
              eq_refl eq_refl eq_refl eq_refl eq_refl eq_refl) as (Hmain & _ & _).
  exact Hmain.
Defined.

(** Against C1 as stated: with status 0 and blank output the run ends with
    exit status 1, not 2. *)
Lemma blank_workflow_id_exit_status :
  ~ (forall (builtins : Builtins) (system : System) args cfg c create_wf t cp t1,
       dry_run args = false ->
       read_config cfg = Ok c ->
       create_wf_cmd args (workflow c) = Ok create_wf ->
       run_cmd create_wf (dry_run args) (with_dune_setup args) true t = (Ok cp, t1) ->
       returncode cp = 0%Z ->
       strip (match stdout cp with Some out => out | None => "" end) = "" ->
       exit_status (fst (main args cfg t)) = 2%Z).
Proof.
  intros H.
  specialize (H sample_builtins blank_system real_args sample_cfg
                (sample_config sample_stages) create_wf []
                {| returncode := 0; stdout := Some (" " +:+ newline); stderr := Some "" |}
                [Stdout "+ justin create-workflow --description cosmics --monte-carlo 10";
                 Spawn create_wf]
                eq_refl eq_refl eq_refl eq_refl eq_refl eq_refl).
  vm_compute in H. discriminate H.
Qed.

Lemma bad_stage_entry_raises_witness :
  @main sample_builtins good_system real_args bad_cfg [] =
  (Raise (ValueError "Each stage needs an 'id'."),
   [Stdout "+ justin create-workflow --description cosmics --monte-carlo 10";
    Spawn create_wf;
    Stdout "WFID=4711";
    Stdout ("+ justin create-stage --workflow-id 4711 --stage-id gen "
            +:+ "--jobscript-git org/repo/gen.jobscript:main "
            +:+ "- - e n v ' ' D U N E S W _ V E R S I O N = v 1 0 _ 1 7 _ 0 1 d 0 0");
    Spawn (["justin"; "create-stage"; "--workflow-id"; "4711"; "--stage-id"; "gen";
            "--jobscript-git"; "org/repo/gen.jobscript:main"]
           ++ chars "--env DUNESW_VERSION=v10_17_01d00")]).
Proof.
  refine (proj2 (proj2 (@bad_stage_entry_raises sample_builtins good_system
            real_args bad_cfg
            (sample_config [stage_entry "gen" "gen.jobscript"; bad_stage])
            [stage_entry "gen" "gen.jobscript"] bad_stage [] []
            eq_refl eq_refl eq_refl)) "4711" _ _ eq_refl eq_refl).
Defined.

(** Against C3 as stated: the run over a document with a bad stage entry has
    already spawned create-workflow when it fails. *)
Lemma bad_stage_entry_after_create_workflow :
  ~ (forall (builtins : Builtins) (system : System) args cfg c st,
       read_config cfg = Ok c ->
       List.In st (stages c) ->
       bad_entry st = true ->
       (exists msg, fst (main args cfg []) = Raise (ValueError msg)) /\
       no_spawn (snd (main args cfg []))).
Proof.
  intros H.
  destruct (H sample_builtins good_system real_args bad_cfg
              (sample_config [stage_entry "gen" "gen.jobscript"; bad_stage])
              bad_stage eq_refl) as [_ Hno].
  - simpl. auto.
  - reflexivity.
  - apply (Hno create_wf). vm_compute. auto.
Qed.

Lemma failing_stage_stops_run_witness :
  @main sample_builtins failing_system real_args sample_cfg [] =
  (Raise (SystemExit 3),
   [Stdout "+ justin create-workflow --description cosmics --monte-carlo 10";
    Spawn create_wf;
    Stdout "WFID=4711";
    Stdout ("+ justin create-stage --workflow-id 4711 --stage-id gen "
            +:+ "--jobscript-git org/repo/gen.jobscript:main "
            +:+ "- - e n v ' ' D U N E S W _ V E R S I O N = v 1 0 _ 1 7 _ 0 1 d 0 0");
    Spawn (["justin"; "create-stage"; "--workflow-id"; "4711"; "--stage-id"; "gen";
            "--jobscript-git"; "org/repo/gen.jobscript:main"]
           ++ chars "--env DUNESW_VERSION=v10_17_01d00");
    Stdout ("+ justin create-stage --workflow-id 4711 --stage-id g4 "
            +:+ "--jobscript-git org/repo/g4.jobscript:main "
            +:+ "- - e n v ' ' D U N E S W _ V E R S I O N = v 1 0 _ 1 7 _ 0 1 d 0 0");
    Spawn (["justin"; "create-stage"; "--workflow-id"; "4711"; "--stage-id"; "g4";
            "--jobscript-git"; "org/repo/g4.jobscript:main"]
           ++ chars "--env DUNESW_VERSION=v10_17_01d00");
    Stderr "ERROR: create-stage failed for stage g4.";
    Stderr "no such jobscript"]).
Proof.
  refine (proj1 (@failing_stage_stops_run sample_builtins failing_system
            real_args sample_cfg (sample_config sample_stages)
            [stage_entry "gen" "gen.jobscript"] (stage_entry "g4" "g4.jobscript")
            [stage_entry "detsim" "detsim.jobscript"; stage_entry "reco" "reco.jobscript"]
            [] "4711" _ _ "g4" _
            {| returncode := 1; stdout := Some ""; stderr := Some "no such jobscript" |}
            _ eq_refl eq_refl eq_refl eq_refl eq_refl eq_refl _)).
  discriminate.
Defined.

Lemma output_patterns_take_precedence_witness :
  exists pre post,
    pre ++ ["--output-pattern"; "*_reco.root"; "--output-pattern"; "*_hist.root"] ++ post
    = ["justin"; "create-stage"; "--workflow-id"; "4711"; "--stage-id"; "reco";
       "--jobscript-git"; "org/repo/reco.jobscript:main"]
      ++ chars "--env DUNESW_VERSION=v10_17_01d00"
      ++ ["--output-pattern"; "*_reco.root"; "--output-pattern"; "*_hist.root"] /\
    @create_stage_cmd sample_builtins ["justin"] "4711" sample_defaults
      (dict_remove "output_patterns" (dict_remove "output_pattern" both_patterns))
    = Ok ("reco", pre ++ post).
Proof.
  destruct (@output_patterns_take_precedence sample_builtins ["justin"] "4711"
              sample_defaults both_patterns
              [PStr "*_reco.root"; PStr "*_hist.root"] "*.txt" "reco"
              (["justin"; "create-stage"; "--workflow-id"; "4711"; "--stage-id"; "reco";
                "--jobscript-git"; "org/repo/reco.jobscript:main"]
               ++ chars "--env DUNESW_VERSION=v10_17_01d00"
               ++ ["--output-pattern"; "*_reco.root"; "--output-pattern"; "*_hist.root"])
              eq_refl ltac:(discriminate) eq_refl ltac:(discriminate) eq_refl)
    as (_ & (pre & post & Hcmd & Hwithout) & _).
  exists pre, post. split; [symmetry; exact Hcmd | exact Hwithout].
Defined.

(** ** [merge_defaults] and the objects it is given *)

Section StoreFacts.
Import Store.
Context {SB : StoreBuiltins}.
Implicit Types (h : gmap nat obj) (v : val) (l : nat).

Lemma extends_refl h : extends h h.
Proof. intros l o H. exact H. Qed.

Lemma extends_trans h0 h1 h2 : extends h0 h1 -> extends h1 h2 -> extends h0 h2.
Proof. intros H1 H2 l o H. auto. Qed.

(** A reference that is free in a store is free in the store it extends. *)
Lemma extends_free h0 h l : extends h0 h -> h !! l = None -> h0 !! l = None.
Proof.
  intros Hext Hl. destruct (h0 !! l) as [o|] eqn:E; [|reflexivity].
  apply Hext in E. congruence.
Qed.

(** Writing at a reference that is free in [h0] keeps what [h0] holds. *)
Lemma extends_insert h0 h l o :
  extends h0 h -> h0 !! l = None -> extends h0 (<[l := o]> h).
Proof.
  intros Hext Hl l' o' H.
  rewrite lookup_insert_ne; [auto|]. intros ->. congruence.
Qed.

Lemma keeps_bind {A B} h0 (m : stx (gmap nat obj) A) (k : A -> stx (gmap nat obj) B)
    (Q : A -> gmap nat obj -> Prop) (R : B -> gmap nat obj -> Prop) h :
  keeps_at h0 m Q h ->
  (forall a h1, Q a h1 -> keeps_at h0 (k a) R h1) ->
  keeps_at h0 (bind m k) R h.
Proof.
  intros Hm Hk Hext. destruct (Hm Hext) as [Hext1 HQ].
  unfold bind. destruct (m h) as [[a|e] h1]; simpl in *.
  - exact (Hk a h1 (HQ a eq_refl) Hext1).
  - split; [exact Hext1 | discriminate].
Qed.

Lemma keeps_ret {A} h0 (a : A) (Q : A -> gmap nat obj -> Prop) h :
  Q a h -> keeps_at h0 (ret a) Q h.
Proof. intros HQ Hext. simpl. split; [exact Hext|]. now intros a' [= <-]. Qed.

(** The reference of a new object is free in [h0]. *)
Lemma keeps_alloc h0 o h :
  keeps_at h0 (alloc o) (fun l h1 => h0 !! l = None /\ h1 !! l = Some o) h.
Proof.
  intros Hext. unfold alloc. simpl.
  pose proof (is_fresh (dom h)) as Hfresh.
  apply not_elem_of_dom in Hfresh.
  pose proof (extends_free _ _ _ Hext Hfresh) as Hfree.
  split; [now apply extends_insert|].
  intros a [= <-]. split; [exact Hfree | apply lookup_insert_eq].
Qed.

Lemma keeps_new_dict h0 h : keeps_at h0 new_dict (fun _ _ => True) h.
Proof.
  unfold new_dict. eapply keeps_bind; [apply keeps_alloc|].
  intros l h1 _. now apply keeps_ret.
Qed.

Lemma keeps_py_dict h0 v h :
  keeps_at h0 (py_dict_s v) (fun l _ => h0 !! l = None) h.
Proof.
  intros Hext. unfold py_dict_s.
  destruct (entries h v) as [es|].
  - destruct (keeps_alloc h0 (ODict es) h Hext) as [H1 H2].
    split; [exact H1|]. intros l Hl. now apply H2.
  - destruct (dict_of_iterable_s h v) as [es|e].
    + destruct (keeps_alloc h0 (ODict es) h Hext) as [H1 H2].
      split; [exact H1|]. intros l Hl. now apply H2.
    + simpl. split; [exact Hext | discriminate].
Qed.

Lemma keeps_py_get h0 v k h :
  keeps_at h0 (py_get_s v k new_dict) (fun _ _ => True) h.
Proof.
  unfold py_get_s. destruct (entries h v) as [es|] eqn:E.
  - assert (Hk : keeps_at h0 (d <- new_dict ;; ret (get es k d))%stx
                   (fun _ _ => True) h).
    { eapply keeps_bind; [apply keeps_new_dict|].
      intros d h1 _. now apply keeps_ret. }
    intros Hext. specialize (Hk Hext). now rewrite E.
  - intros Hext. rewrite E. simpl. auto.
Qed.

Lemma keeps_py_or h0 v h :
  keeps_at h0 (py_or_s v new_dict) (fun _ _ => True) h.
Proof.
  intros Hext. unfold py_or_s. destruct (truthy_s h v).
  - simpl. auto.
  - now apply keeps_new_dict.
Qed.

(** [update] and item assignment write at their own reference only. *)
Lemma keeps_py_update h0 l v h :
  h0 !! l = None -> keeps_at h0 (py_update_s l v) (fun _ _ => True) h.
Proof.
  intros Hl Hext. unfold py_update_s.
  destruct (h !! l) as [[old|items]|]; simpl; auto.
  destruct (entries h v) as [es|]; simpl.
  - split; [now apply extends_insert | auto].
  - destruct (dict_of_iterable_s h v) as [es|e]; simpl; auto.
    split; [now apply extends_insert | auto].
Qed.

Lemma keeps_py_setitem h0 l k v h :
  h0 !! l = None ->
  keeps_at h0 (py_setitem_s l k v)
    (fun _ h1 => exists es, h1 !! l = Some (ODict es)) h.
Proof.
  intros Hl Hext. unfold py_setitem_s.
  destruct (h !! l) as [[old|items]|]; simpl;
    try (split; [exact Hext | discriminate]).
  split; [now apply extends_insert|].
  intros _ _. eexists. apply lookup_insert_eq.
Qed.

Lemma keeps_merge_defaults h0 stage defaults h :
  keeps_at h0 (merge_defaults_s stage defaults)
    (fun merged h1 => exists l es,
       merged = VRef l /\ h0 !! l = None /\ h1 !! l = Some (ODict es)) h.
Proof.
  unfold merge_defaults_s.
  eapply keeps_bind; [apply keeps_py_dict|]. intros merged h1 Hmerged. simpl in Hmerged.
  eapply keeps_bind; [now apply keeps_py_update|]. intros _ h2 _.
  eapply keeps_bind; [apply keeps_py_get|]. intros dv h4 _.
  eapply keeps_bind; [apply keeps_py_or|]. intros dv' h5 _.
  eapply keeps_bind; [apply keeps_py_dict|]. intros env_d h6 Henv_d. simpl in Henv_d.
  eapply keeps_bind; [apply keeps_py_get|]. intros sv h8 _.
  eapply keeps_bind; [apply keeps_py_or|]. intros sv' h9 _.
  eapply keeps_bind; [apply keeps_py_dict|]. intros env_s h10 _.
  eapply keeps_bind; [now apply keeps_py_update|]. intros _ h11 _.
  eapply keeps_bind; [now apply keeps_py_setitem|]. intros _ h12 [es Hes].
  apply keeps_ret. now exists merged, es.
Qed.

(** C9: [merge_defaults] changes no object that was in the store when it
    was called (the stage, the defaults, their [env] maps), and what it
    returns is a dictionary at a reference that was free. *)
Theorem merge_defaults_leaves_arguments (stage defaults : val) (h : gmap nat obj) :
  extends h (snd (merge_defaults_s stage defaults h)) /\
  match fst (merge_defaults_s stage defaults h) with
  | Ok merged =>
      exists l es, merged = VRef l /\ h !! l = None /\
                   snd (merge_defaults_s stage defaults h) !! l = Some (ODict es)
  | Raise _ => True
  end.
Proof.
  destruct (keeps_merge_defaults h stage defaults h (extends_refl h)) as [Hext Hres].
  split; [exact Hext|].
  destruct (fst (merge_defaults_s stage defaults h)) as [merged|e]; auto.
Qed.

End StoreFacts.

(** At the sample store the four objects are as before, and the merged
    record and its [env] are two new ones. *)
Lemma merge_defaults_leaves_arguments_witness :
  let h' := snd (@Store.merge_defaults_s sample_store_builtins
                   (Store.VRef 0) (Store.VRef 2) sample_store) in
  h' !! 0 = sample_store !! 0 /\ h' !! 1 = sample_store !! 1 /\
  h' !! 2 = sample_store !! 2 /\ h' !! 3 = sample_store !! 3.
Proof.
  pose proof (proj1 (@merge_defaults_leaves_arguments sample_store_builtins
                       (Store.VRef 0) (Store.VRef 2) sample_store)) as Hext.
  repeat split; apply Hext; reflexivity.
Defined.

(** ** Dry runs *)

Section DryRunFacts.
Context {builtins : Builtins} {system : System}.

(** Under dry-run the workflow id is the placeholder, whatever the output. *)
Lemma create_workflow_dry_run args w create_wf t :
  dry_run args = true ->
  create_wf_cmd args w = Ok create_wf ->
  create_workflow args w t =
  (Ok "DRYRUN_WFID",
   t ++ [Stdout (echo_line create_wf (with_dune_setup args));
         Stdout "WFID=DRYRUN_WFID"]).
Proof.
  intros Hdry Hcmd.
  rewrite (create_workflow_unfold args w create_wf t Dummy
             (t ++ [Stdout (echo_line create_wf (with_dune_setup args))]) Hcmd);
    [| rewrite Hdry; apply run_cmd_dry | reflexivity].
  rewrite Hdry. unfold bind, lift, print, emit, ret. simpl.
  now rewrite <- app_assoc.
Qed.

Lemma no_spawn_app t t' : no_spawn t -> no_spawn t' -> no_spawn (t ++ t').
Proof.
  intros H H' argv Hin. apply List.in_app_or in Hin as [Hin|Hin];
    [exact (H argv Hin) | exact (H' argv Hin)].
Qed.

Lemma no_spawn_stdout line : no_spawn [Stdout line].
Proof. intros argv [H|[]]. discriminate H. Qed.

(** Under dry-run the stage loop spawns nothing. *)
Lemma create_stages_dry_run args g wfid d stages t :
  dry_run args = true -> no_spawn t ->
  no_spawn (snd (create_stages args g wfid d stages t)).
Proof.
  intros Hdry. revert t. induction stages as [|st rest IH]; intros t Ht; [exact Ht|].
  rewrite create_stages_cons. unfold bind at 1. unfold lift at 1.
  destruct (stage_cmd g wfid d st) as [sc|e]; [|exact Ht].
  rewrite Hdry. unfold bind at 1. rewrite run_cmd_dry.
  unfold bind at 1. rewrite check_call_ok by reflexivity.
  apply IH, no_spawn_app; [exact Ht | apply no_spawn_stdout].
Qed.

End DryRunFacts.

(** The merged record and its [env] at the sample store: the entries the
    value-level [merge_defaults] computes. *)
Example merge_defaults_s_sample :
  let r := @Store.merge_defaults_s sample_store_builtins
             (Store.VRef 0) (Store.VRef 2) sample_store in
  fst r = Ok (Store.VRef 4) /\
  snd r !! 4 = Some (Store.ODict [("repo", Store.VStr "org/repo");
                                   ("env", Store.VRef 6);
                                   ("id", Store.VStr "gen")]) /\
  snd r !! 6 = Some (Store.ODict [("A", Store.VInt 1); ("B", Store.VInt 3);
                                   ("C", Store.VInt 4)]).
Proof. vm_compute. auto. Qed.

(** * Further facts *)

(** ** The steps of the run *)

Section RunSteps.
Context {builtins : Builtins} {system : System}.

(** What a real call returns and leaves in the trace. *)
Lemma run_cmd_real_eq argv ws capture t :
  run_cmd argv false ws capture t =
  (let r := subprocess_run (t ++ [Stdout (echo_line argv ws)])
              (build_justin_cmd argv ws) in
   (Ok {| returncode := fst (fst r);
          stdout := if capture then Some (snd (fst r)) else None;
          stderr := if capture then Some (snd r) else None |},
    t ++ call_events ws argv)).
Proof.
  unfold run_cmd, bind, print, emit, spawn, call_events. simpl.
  fold (echo_line argv ws).
  destruct (subprocess_run _ _) as [[rc out] err]. simpl.
  now rewrite <- app_assoc.
Qed.


(** X1: when create-workflow returns a status other than 0, [main] ends
    there with [sys.exit(2)]: the trace gains the error line and the
    captured standard error, and no stage command is built. *)
Theorem create_workflow_failure_exits_2 args cfg c create_wf t cp t1 :
  read_config cfg = Ok c ->
  create_wf_cmd args (workflow c) = Ok create_wf ->
  run_cmd create_wf (dry_run args) (with_dune_setup args) true t = (Ok cp, t1) ->
  returncode cp <> 0%Z ->
  main args cfg t =
    (Raise (SystemExit 2),
     t1 ++ Stderr "ERROR: create-workflow failed." :: stderr_lines cp) /\
  t1 = t ++ call_events (with_dune_setup args) create_wf /\
  exit_status (fst (main args cfg t)) = 2%Z.
Proof.
  intros Hcfg Hcmd Hrun Hrc.
  assert (Hmain : main args cfg t =
    (Raise (SystemExit 2),
     t1 ++ Stderr "ERROR: create-workflow failed." :: stderr_lines cp)).
  { rewrite (main_unfold _ _ _ _ Hcfg). apply bind_raise.
    unfold create_workflow. rewrite Hcmd, bind_lift_ok.
    rewrite (bind_ok _ _ _ _ _ Hrun).
    apply bind_raise, check_call_failed. now apply failed_iff. }
  split; [exact Hmain|]. split; [|now rewrite Hmain].
  destruct (dry_run args).
  - rewrite run_cmd_dry in Hrun. injection Hrun as <- _. now elim Hrc.
  - rewrite run_cmd_real_eq in Hrun. now injection Hrun as _ <-.
Qed.

(** X2: in a real run where create-workflow returns status 0, the workflow
    id is its standard output without the surrounding whitespace, and it is
    printed once that is not empty. *)
Theorem workflow_id_is_trimmed_output args w create_wf t cp t1 out :
  dry_run args = false ->
  create_wf_cmd args w = Ok create_wf ->
  run_cmd create_wf (dry_run args) (with_dune_setup args) true t = (Ok cp, t1) ->
  returncode cp = 0%Z ->
  stdout cp = Some out ->
  strip out <> "" ->
  create_workflow args w t = (Ok (strip out), t1 ++ [Stdout ("WFID=" +:+ strip out)]).
Proof.
  intros Hdry Hcmd Hrun Hrc Hout Hne.
  assert (Hok : failed cp = false) by (unfold failed; now rewrite Hrc).
  rewrite (create_workflow_unfold _ _ _ _ _ _ Hcmd Hrun Hok).
  rewrite Hdry, Hout. change (negb false) with true. cbv iota zeta.
  unfold nonempty.
  destruct (String.eqb_spec (strip out) "") as [Heq|_]; [contradiction|].
  reflexivity.
Qed.

(** X3: when submit-workflow returns a status other than 0, [main] ends
    with [sys.exit(4)] and the line [Submitted WFID=...] is not printed. *)
Theorem submit_failure_exits_4 args cfg c t wfid t1 t2 cp t3 :
  read_config cfg = Ok c ->
  create_workflow args (workflow c) t = (Ok wfid, t1) ->
  create_stages args (justin_global args) wfid (defaults c) (stages c) t1 = (Ok tt, t2) ->
  run_cmd (submit_cmd args wfid) (dry_run args) (with_dune_setup args) true t2
    = (Ok cp, t3) ->
  returncode cp <> 0%Z ->
  main args cfg t =
    (Raise (SystemExit 4),
     t3 ++ Stderr "ERROR: submit-workflow failed." :: stderr_lines cp) /\
  t3 = t2 ++ call_events (with_dune_setup args) (submit_cmd args wfid) /\
  exit_status (fst (main args cfg t)) = 4%Z.
Proof.
  intros Hcfg Hwf Hst Hrun Hrc.
  assert (Hmain : main args cfg t =
    (Raise (SystemExit 4),
     t3 ++ Stderr "ERROR: submit-workflow failed." :: stderr_lines cp)).
  { rewrite (main_unfold _ _ _ _ Hcfg), (bind_ok _ _ _ _ _ Hwf).
    rewrite (bind_ok _ _ _ _ _ Hst).
    unfold submit_workflow. rewrite (bind_ok _ _ _ _ _ Hrun).
    apply bind_raise, check_call_failed. now apply failed_iff. }
  split; [exact Hmain|]. split; [|now rewrite Hmain].
  destruct (dry_run args).
  - rewrite run_cmd_dry in Hrun. injection Hrun as <- _. now elim Hrc.
  - rewrite run_cmd_real_eq in Hrun. now injection Hrun as _ <-.
Qed.

(** After a submit-workflow that returned status 0: the line
    [Submitted WFID=...], then show-stages, whose result is dropped. *)
Lemma submit_workflow_ok args wfid t2 cp t3 :
  run_cmd (submit_cmd args wfid) (dry_run args) (with_dune_setup args) true t2
    = (Ok cp, t3) ->
  returncode cp = 0%Z ->
  submit_workflow args wfid t2 =
    (Ok tt,
     t3 ++ Stdout ("Submitted WFID=" +:+ wfid)
        :: (if dry_run args
            then [Stdout (echo_line (show_cmd args wfid) (with_dune_setup args))]
            else call_events (with_dune_setup args) (show_cmd args wfid))).
Proof.
  intros Hrun Hrc.
  assert (Hok : failed cp = false) by (unfold failed; now rewrite Hrc).
  unfold submit_workflow. rewrite (bind_ok _ _ _ _ _ Hrun).
  rewrite (bind_ok _ _ _ _ _ (check_call_ok cp _ _ t3 Hok)).
  unfold bind at 1. unfold print at 1, emit at 1.
  destruct (dry_run args).
  - unfold bind. rewrite run_cmd_dry. unfold ret.
    now rewrite <- app_assoc.
  - unfold bind. rewrite run_cmd_real_eq. unfold ret. cbv zeta.
    now rewrite <- app_assoc.
Qed.

(** X4: once submit-workflow has returned status 0 the run ends well,
    whatever show-stages returns: its result is not looked at. *)
Theorem show_stages_result_ignored args cfg c t wfid t1 t2 cp t3 :
  read_config cfg = Ok c ->
  create_workflow args (workflow c) t = (Ok wfid, t1) ->
  create_stages args (justin_global args) wfid (defaults c) (stages c) t1 = (Ok tt, t2) ->
  run_cmd (submit_cmd args wfid) (dry_run args) (with_dune_setup args) true t2
    = (Ok cp, t3) ->
  returncode cp = 0%Z ->
  main args cfg t =
    (Ok tt,
     t3 ++ Stdout ("Submitted WFID=" +:+ wfid)
        :: (if dry_run args
            then [Stdout (echo_line (show_cmd args wfid) (with_dune_setup args))]
            else call_events (with_dune_setup args) (show_cmd args wfid))) /\
  exit_status (fst (main args cfg t)) = 0%Z.
Proof.
  intros Hcfg Hwf Hst Hrun Hrc.
  assert (Hmain : main args cfg t =
    (Ok tt,
     t3 ++ Stdout ("Submitted WFID=" +:+ wfid)
        :: (if dry_run args
            then [Stdout (echo_line (show_cmd args wfid) (with_dune_setup args))]
            else call_events (with_dune_setup args) (show_cmd args wfid)))).
  { rewrite (main_unfold _ _ _ _ Hcfg), (bind_ok _ _ _ _ _ Hwf).
    rewrite (bind_ok _ _ _ _ _ Hst).
    exact (submit_workflow_ok args wfid t2 cp t3 Hrun Hrc). }
  split; [exact Hmain | now rewrite Hmain].
Qed.

End RunSteps.

(** ** Whole runs *)

Section WholeRuns.
Context {builtins : Builtins} {system : System}.



(** X6: under dry-run [main] spawns no process, whatever the document. *)
Theorem dry_run_spawns_nothing args cfg t :
  dry_run args = true ->
  no_spawn t ->
  no_spawn (snd (main args cfg t)).
Proof.
  intros Hdry Ht. unfold main.
  unfold bind at 1. unfold lift at 1.
  destruct (read_config cfg) as [c|e]; [|exact Ht].
  unfold bind at 1.
  assert (Hwf : no_spawn (snd (create_workflow args (workflow c) t))).
  { destruct (create_wf_cmd args (workflow c)) as [create_wf|e] eqn:Hcmd.
    - rewrite (create_workflow_dry_run args _ create_wf t Hdry Hcmd). simpl.
      apply no_spawn_app; [exact Ht|].
      intros argv [H|[H|[]]]; discriminate H.
    - unfold create_workflow. rewrite Hcmd. exact Ht. }
  destruct (create_workflow args (workflow c) t) as [[wfid|e] t1]; [|exact Hwf].
  simpl in Hwf. unfold bind at 1.
  pose proof (create_stages_dry_run args (justin_global args) wfid (defaults c)
                (stages c) t1 Hdry Hwf) as Hst.
  destruct (create_stages _ _ _ _ _ t1) as [[[]|e] t2]; [|exact Hst].
  simpl in Hst. unfold submit_workflow. rewrite Hdry.
  unfold bind at 1. rewrite run_cmd_dry.
  unfold bind at 1. rewrite check_call_ok by reflexivity.
  unfold bind, print, emit. rewrite run_cmd_dry. simpl.
  repeat apply no_spawn_app; try assumption; apply no_spawn_stdout.
Qed.

(** Whether the command of a stage can be built, and the exception when
    it cannot, do not depend on the workflow id. *)
Lemma create_stage_cmd_error_any_id g wfid wfid' d m e :
  create_stage_cmd g wfid d m = Raise e -> create_stage_cmd g wfid' d m = Raise e.
Proof.
  unfold create_stage_cmd.
  repeat match goal with
         | |- context [rbind ?r _] => destruct r; cbn [rbind]
         end; congruence.
Qed.

Lemma stage_cmd_error_any_id g wfid wfid' d st e :
  stage_cmd g wfid d st = Raise e -> stage_cmd g wfid' d st = Raise e.
Proof.
  unfold stage_cmd.
  destruct (require (is_dict st) _); cbn [rbind]; [|congruence].
  destruct (py_in "id" st); cbn [rbind]; [|congruence].
  destruct (require _ _); cbn [rbind]; [|congruence].
  destruct (merge_defaults st d); cbn [rbind]; [|congruence].
  apply create_stage_cmd_error_any_id.
Qed.

(** X7: a stage whose command cannot be built ends the run before anything
    is echoed or spawned for it: the run is the create-workflow step, the loop
    over the stages before it, and the exception of that stage. *)
Theorem stage_error_stops_before_call args cfg c pre st post wfid0 e t :
  read_config cfg = Ok c ->
  stages c = pre ++ st :: post ->
  stage_cmd (justin_global args) wfid0 (defaults c) st = Raise e ->
  main args cfg t =
    (wfid <- create_workflow args (workflow c) ;;
     create_stages args (justin_global args) wfid (defaults c) pre ;;
     raise e)%stx t.
Proof.
  intros Hcfg Hst Hfail.
  rewrite (main_unfold _ _ _ _ Hcfg), Hst.
  apply bind_ext; intros wfid t1.
  rewrite (bind_cong _ _ _ _ (create_stages_app _ _ _ _ _ _)), bind_assoc.
  apply bind_ext; intros _ t2.
  rewrite (bind_raise _ _ _ e t2); [reflexivity|].
  now rewrite create_stages_cons, (stage_cmd_error_any_id _ _ wfid _ _ _ Hfail).
Qed.

End WholeRuns.

(** ** More on [merge_defaults] *)

Section AssocOrder.
Context {V : Type}.
Implicit Types (d other : list (string * V)) (k : string) (v : V).

Lemma dict_has_set_ne k k' v d :
  k <> k' -> dict_has k' (dict_set k v d) = dict_has k' d.
Proof. intros H. unfold dict_has. now rewrite dict_get_set_ne. Qed.

(** [d.update(other)] keeps the keys of [d] in place and puts the new keys
    of [other] after them, in the order of [other]. *)
Lemma keys_dict_update d other :
  dict_wf other ->
  keys (dict_update d other) =
  keys d ++ List.filter (fun k => negb (dict_has k d)) (keys other).
Proof.
  revert d. induction other as [|[k v] other IH]; intros d Hwf.
  - simpl. now rewrite app_nil_r.
  - rewrite dict_update_cons.
    inversion Hwf as [|? ? Hnotin Hwf']; subst.
    rewrite IH by exact Hwf'. rewrite keys_dict_set.
    assert (Hext : List.filter (fun k0 => negb (dict_has k0 (dict_set k v d))) (keys other)
                   = List.filter (fun k0 => negb (dict_has k0 d)) (keys other)).
    { apply List.filter_ext_in. intros k0 Hin.
      rewrite dict_has_set_ne; [reflexivity|]. intros ->. contradiction. }
    rewrite Hext. simpl. destruct (dict_has k d); simpl; [reflexivity|].
    now rewrite <- app_assoc.
Qed.

End AssocOrder.

Section MergeMore.
Context {builtins : Builtins}.

(** X8: for every field but [env] the stage's value wins when the stage has
    the field, and the defaults' value is used otherwise. *)
Theorem merge_defaults_field_precedence (stage defaults merged : dict) (k : string) :
  dict_wf stage ->
  merge_defaults (PDict stage) (PDict defaults) = Ok merged ->
  k <> "env" ->
  dict_get k merged =
  match dict_get k stage with
  | Some v => Some v
  | None => dict_get k defaults
  end.
Proof.
  intros Hwf Hm Hk.
  apply merge_defaults_env in Hm as (env_d & env_s & _ & _ & ->).
  rewrite dict_get_set_ne by congruence.
  now apply dict_get_update.
Qed.

(** Whatever [merge_defaults] is given, the record it returns has a
    dictionary under [env]. *)
Lemma merge_defaults_env_any (st d : pyval) (merged : dict) :
  merge_defaults st d = Ok merged ->
  exists env, dict_get "env" merged = Some (PDict env).
Proof.
  intros H. unfold merge_defaults in H.
  rbind_inv H m0 E0. rbind_inv H other E1. rbind_inv H dv E2.
  rbind_inv H env_d E3. rbind_inv H sv E4. rbind_inv H env_s E5.
  injection H as <-. eexists. apply dict_get_set_eq.
Qed.

(** X9: on a record that [merge_defaults] returned, the check that [env] is
    a mapping cannot fail: the [--env] flags are one pair per entry of the
    merged [env]. *)
Theorem env_check_never_fails (st d : pyval) (merged : dict) (stage_id : string) :
  merge_defaults st d = Ok merged ->
  exists env,
    dict_get "env" merged = Some (PDict env) /\
    env_flags stage_id merged =
    Ok (flat_map (fun kv => ["--env"; fst kv +:+ "=" +:+ py_str (snd kv)]) env).
Proof.
  intros H. destruct (merge_defaults_env_any _ _ _ H) as [env Henv].
  exists env. split; [exact Henv|].
  unfold env_flags, get, py_or. rewrite Henv.
  now destruct env.
Qed.

(** X10: the [--env] flags of a stage list the variables of the defaults
    first, in their order and with the stage's values where the stage sets
    them, and then the variables only the stage has, in the stage's order. *)
Theorem env_flags_order (stage defaults es ed : dict) (stage_id : string) :
  dict_get "env" stage = Some (PDict es) ->
  dict_get "env" defaults = Some (PDict ed) ->
  dict_wf es ->
  exists merged,
    merge_defaults (PDict stage) (PDict defaults) = Ok merged /\
    env_flags stage_id merged =
      Ok (flat_map (fun kv => ["--env"; fst kv +:+ "=" +:+ py_str (snd kv)])
            (dict_update ed es)) /\
    keys (dict_update ed es) =
      keys ed ++ List.filter (fun k => negb (dict_has k ed)) (keys es).
Proof.
  intros Hs Hd Hwf.
  rewrite merge_defaults_unfold, (env_of_dict _ _ Hd), (env_of_dict _ _ Hs).
  eexists. split; [reflexivity|]. split.
  - unfold env_flags, get, py_or. rewrite dict_get_set_eq.
    now destruct (dict_update ed es).
  - now apply keys_dict_update.
Qed.

End MergeMore.

(** ** More on the [create-stage] command *)

Section CommandMore.
Context {builtins : Builtins}.

Ltac agree_on Hag :=
  rewrite ?Hag by (simpl; intros [?|[?|[]]]; discriminate).

(** X11: a stage is refused, by name, when its repository, its ref or its
    jobscript is missing or false after the merge; they are checked in that
    order. *)
Theorem missing_script_location_raises g wfid (defaults st_merged : dict) v :
  dict_get "id" st_merged = Some v ->
  (truthy (resolved defaults st_merged "repo") = false ->
   create_stage_cmd g wfid (PDict defaults) st_merged =
   Raise (ValueError ("Stage " +:+ as_str v +:+
                      ": repo missing (set defaults.repo or stage.repo)."))) /\
  (truthy (resolved defaults st_merged "repo") = true ->
   truthy (resolved defaults st_merged "ref") = false ->
   create_stage_cmd g wfid (PDict defaults) st_merged =
   Raise (ValueError ("Stage " +:+ as_str v +:+
                      ": ref missing (set defaults.ref or stage.ref)."))) /\
  (truthy (resolved defaults st_merged "repo") = true ->
   truthy (resolved defaults st_merged "ref") = true ->
   truthy (get st_merged "jobscript" PNone) = false ->
   create_stage_cmd g wfid (PDict defaults) st_merged =
   Raise (ValueError ("Stage " +:+ as_str v +:+ ": jobscript missing."))).
Proof.
  intros Hid. unfold resolved, create_stage_cmd. simpl py_getitem. rewrite Hid.
  cbn [rbind py_get]. fold (get defaults "repo" PNone) (get defaults "ref" PNone).
  repeat split.
  - now intros ->.
  - now intros -> ->.
  - now intros -> -> ->.
Qed.


(** X13: a built command starts with the global flags, the subcommand, the
    workflow id, the stage id and the script location
    [<repo>/<jobscript>:<ref>], in that order. *)
Theorem create_stage_cmd_head g wfid (defaults st_merged : dict) stage_id cmd :
  create_stage_cmd g wfid (PDict defaults) st_merged = Ok (stage_id, cmd) ->
  exists flags,
    cmd = g ++
          ["create-stage"; "--workflow-id"; wfid; "--stage-id"; stage_id;
           "--jobscript-git";
           py_str (resolved defaults st_merged "repo") +:+ "/" +:+
           py_str (get st_merged "jobscript" PNone) +:+ ":" +:+
           py_str (resolved defaults st_merged "ref")] ++ flags.
Proof.
  intros H. unfold create_stage_cmd in H.
  rbind_inv H idv Eid. rbind_inv H drepo E1. rbind_inv H dref E2.
  rbind_inv H u1 E3. rbind_inv H u2 E4. rbind_inv H u3 E5.
  rbind_inv H env E6. rbind_inv H ops E7. rbind_inv H sites E8.
  injection H as <- <-.
  simpl in E1, E2. injection E1 as <-. injection E2 as <-.
  eexists. rewrite <- !app_assoc. reflexivity.
Qed.

Lemma adjacent_app_r a b (l1 l2 : list string) :
  adjacent a b l2 = true -> adjacent a b (l1 ++ l2) = true.
Proof.
  intros H. induction l1 as [|x l1 IH]; [exact H|].
  simpl. destruct (l1 ++ l2) as [|y rest] eqn:E; [discriminate IH|].
  rewrite IH. apply orb_true_r.
Qed.

Lemma create_stage_cmd_prefix g wfid d st_merged stage_id cmd :
  create_stage_cmd g wfid d st_merged = Ok (stage_id, cmd) ->
  exists location flags,
    cmd = g ++ ["create-stage"; "--workflow-id"; wfid; "--stage-id"; stage_id;
                "--jobscript-git"; location] ++ flags.
Proof.
  intros H. unfold create_stage_cmd in H.
  rbind_inv H idv Eid. rbind_inv H drepo E1. rbind_inv H dref E2.
  rbind_inv H u1 E3. rbind_inv H u2 E4. rbind_inv H u3 E5.
  rbind_inv H env E6. rbind_inv H ops E7. rbind_inv H sites E8.
  injection H as <- <-.
  eexists _, _. rewrite <- !app_assoc. reflexivity.
Qed.

(** X14: the workflow id follows [--workflow-id] in every command issued
    after create-workflow: each create-stage, submit-workflow and
    show-stages. *)
Theorem workflow_id_in_every_command args wfid d st stage_id cmd :
  stage_cmd (justin_global args) wfid d st = Ok (stage_id, cmd) ->
  adjacent "--workflow-id" wfid cmd = true /\
  adjacent "--workflow-id" wfid (submit_cmd args wfid) = true /\
  adjacent "--workflow-id" wfid (show_cmd args wfid) = true.
Proof.
  intros H. split; [|split].
  - unfold stage_cmd in H.
    rbind_inv H u1 E1. rbind_inv H has_id E2. rbind_inv H u2 E3.
    rbind_inv H st_merged Em.
    apply create_stage_cmd_prefix in H as (location & flags & ->).
    apply adjacent_app_r. simpl. now rewrite String.eqb_refl.
  - unfold submit_cmd. apply adjacent_app_r. simpl. now rewrite String.eqb_refl.
  - unfold show_cmd. apply adjacent_app_r. simpl. now rewrite String.eqb_refl.
Qed.

(** On a record that differs from a good one in [output_patterns] and
    [output_pattern] only, the command is decided by the output-pattern
    block. *)
Lemma create_stage_cmd_block_of g wfid d st stage_id cmd :
  create_stage_cmd g wfid d st = Ok (stage_id, cmd) ->
  exists pre post,
    forall st',
      agree_except ["output_patterns"; "output_pattern"] st st' ->
      create_stage_cmd g wfid d st' =
      (ops <- output_pattern_flags stage_id st' ;;
       Ok (stage_id, pre ++ ops ++ post))%result.
Proof.
  intros H. unfold create_stage_cmd in H.
  rbind_inv H idv Eid. rbind_inv H drepo E1. rbind_inv H dref E2.
  rbind_inv H u1 E3. rbind_inv H u2 E4. rbind_inv H u3 E5.
  rbind_inv H env E6. rbind_inv H ops E7. rbind_inv H sites E8.
  injection H as <- <-.
  exists (g ++
     ["create-stage";
      "--workflow-id"; as_str (PStr wfid);
      "--stage-id"; as_str idv;
      "--jobscript-git";
      py_str (get st "repo" drepo) +:+ "/" +:+ py_str (get st "jobscript" PNone)
        +:+ ":" +:+ py_str (get st "ref" dref)] ++
     resource_flags st ++ env ++ tarfile_flags st ++ dunesw_flags st ++
     fhicl_flags st ++ next_stage_flags st),
    (rse_flags st ++ lifetime_flags st ++ sites ++ classad_flags st).
  intros st' Hag. unfold agree_except in Hag.
  assert (Hid : py_getitem (PDict st') "id" = Ok idv).
  { simpl in *. now agree_on Hag. }
  assert (Hres : resource_flags st' = resource_flags st).
  { unfold resource_flags, get. now agree_on Hag. }
  assert (Henv : env_flags (as_str idv) st' = Ok env).
  { rewrite <- E6. unfold env_flags, get. now agree_on Hag. }
  assert (Htar : tarfile_flags st' = tarfile_flags st).
  { unfold tarfile_flags, set_not_none. now agree_on Hag. }
  assert (Hver : dunesw_flags st' = dunesw_flags st).
  { unfold dunesw_flags, set_not_none. now agree_on Hag. }
  assert (Hfcl : fhicl_flags st' = fhicl_flags st).
  { unfold fhicl_flags, set_not_none. now agree_on Hag. }
  assert (Hnext : next_stage_flags st' = next_stage_flags st).
  { unfold next_stage_flags, set_truthy. now agree_on Hag. }
  assert (Hrse : rse_flags st' = rse_flags st).
  { unfold rse_flags, set_truthy. now agree_on Hag. }
  assert (Hlife : lifetime_flags st' = lifetime_flags st).
  { unfold lifetime_flags, set_not_none. now agree_on Hag. }
  assert (Hsites : site_flags (as_str idv) st' = Ok sites).
  { rewrite <- E8. unfold site_flags, set_truthy. now agree_on Hag. }
  assert (Hca : classad_flags st' = classad_flags st).
  { unfold classad_flags, set_truthy. now agree_on Hag. }
  unfold create_stage_cmd. rewrite Hid. simpl rbind at 1.
  rewrite E1, E2. simpl rbind at 1. simpl rbind at 1.
  unfold get in E3, E4, E5 |- *. agree_on Hag.
  rewrite E3, E4, E5. cbn [rbind].
  rewrite Henv. cbn [rbind].
  destruct (output_pattern_flags (as_str idv) st') as [ops'|e]; cbn [rbind];
    [|reflexivity].
  rewrite Hsites. cbn [rbind].
  rewrite Hres, Htar, Hver, Hfcl, Hnext, Hrse, Hlife, Hca.
  rewrite <- !app_assoc. reflexivity.
Qed.

(** X15: an [output_patterns] that is true without being a list (a single
    pattern given as a string, say) is refused by name instead of being used:
    a record that builds without the field raises with it. *)
Theorem output_patterns_must_be_list g wfid d st v stage_id cmd :
  create_stage_cmd g wfid d (dict_remove "output_patterns" st) = Ok (stage_id, cmd) ->
  dict_get "output_patterns" st = Some v ->
  truthy v = true ->
  is_list v = false ->
  create_stage_cmd g wfid d st =
  Raise (ValueError ("Stage " +:+ stage_id +:+ ": output_patterns must be a list")).
Proof.
  intros H Hv Ht Hl.
  destruct (create_stage_cmd_block_of _ _ _ _ _ _ H) as (pre & post & Hother).
  rewrite (Hother st).
  - unfold output_pattern_flags, set_truthy. rewrite Hv, Ht.
    destruct v; try reflexivity. discriminate Hl.
  - intros k Hk. symmetry. apply dict_get_remove_ne. simpl in Hk. intuition.
Qed.

(** X16: when [output_patterns] is missing or false (an empty list, null),
    a true [output_pattern] gives exactly one [--output-pattern] flag: without
    it the command is the same minus that pair. *)
Theorem single_output_pattern_used g wfid d st v stage_id cmd :
  set_truthy st "output_patterns" = None ->
  dict_get "output_pattern" st = Some v ->
  truthy v = true ->
  create_stage_cmd g wfid d st = Ok (stage_id, cmd) ->
  exists pre post,
    cmd = pre ++ ["--output-pattern"; as_str v] ++ post /\
    create_stage_cmd g wfid d (dict_remove "output_pattern" st)
    = Ok (stage_id, pre ++ post).
Proof.
  intros Hnone Hv Ht H.
  destruct (create_stage_cmd_block_of _ _ _ _ _ _ H) as (pre & post & Hother).
  exists pre, post. split.
  - rewrite (Hother st) in H by (intros k _; reflexivity).
    unfold output_pattern_flags in H. rewrite Hnone in H.
    unfold set_truthy in H. rewrite Hv, Ht in H. cbn [rbind] in H.
    now injection H as <-.
  - rewrite (Hother (dict_remove "output_pattern" st)).
    + unfold output_pattern_flags.
      assert (Hn' : set_truthy (dict_remove "output_pattern" st) "output_patterns" = None).
      { unfold set_truthy in *. now rewrite dict_get_remove_ne by discriminate. }
      rewrite Hn'. unfold set_truthy. now rewrite dict_get_remove_eq.
    + intros k Hk. apply dict_get_remove_ne. simpl in Hk. intuition.
Qed.

End CommandMore.

(** ** The document *)

Section ConfigMore.
Context {builtins : Builtins} {system : System}.

(** X17: a document without a [stages] entry, or with one that is false
    (null, an empty list) or not a list, ends the run with a [ValueError]
    before anything is printed or spawned. *)
Theorem stage_list_required args (d : dict) t :
  dict_get "stages" d = None \/
  (exists v, dict_get "stages" d = Some v /\ (truthy v = false \/ is_list v = false)) ->
  main args (PDict d) t =
  (Raise (ValueError "Config must contain a non-empty 'stages:' list."), t).
Proof.
  intros H. unfold main, read_config, py_get, get, py_or.
  cbn [rbind].
  destruct H as [->|(v & -> & Hv)].
  - reflexivity.
  - destruct Hv as [Hv|Hv].
    + now rewrite Hv.
    + destruct (truthy v) eqn:Ht; [|reflexivity].
      destruct v; try reflexivity; discriminate.
Qed.

(** X18: with a stage list in place, a workflow section without
    [description], or with it and without [monte_carlo], ends the run with a
    [ValueError] before anything is printed or spawned; a missing section
    counts as an empty one. *)
Theorem workflow_keys_required args (d w : dict) st rest t :
  dict_get "stages" d = Some (PList (st :: rest)) ->
  get d "workflow" (PDict []) = PDict w ->
  (dict_has "description" w = false ->
   main args (PDict d) t = (Raise (ValueError "workflow.description is required"), t)) /\
  (dict_has "description" w = true -> dict_has "monte_carlo" w = false ->
   main args (PDict d) t = (Raise (ValueError "workflow.monte_carlo is required"), t)).
Proof.
  intros Hst Hw.
  assert (Hor : py_or (PDict w) (PDict []) = PDict w) by now destruct w.
  unfold get in Hw.
  unfold main, read_config, py_get. cbn [rbind].
  rewrite Hw, Hor, Hst. simpl py_or. cbn [rbind require py_in].
  split.
  - now intros ->.
  - now intros -> ->.
Qed.

(** X19: a document that is not a mapping (an empty file loads as [None])
    ends the run with an [AttributeError] before anything is printed or
    spawned. *)
Theorem document_must_be_mapping args cfg t :
  is_dict cfg = false ->
  main args cfg t = (Raise AttributeError, t).
Proof.
  intros H. destruct cfg; try reflexivity. discriminate H.
Qed.

End ConfigMore.

(** ** [load_config] *)

Section LoadFacts.
Context {parsers : Parsers}.

Lemma lower_char_idem c : lower_char (lower_char c) = lower_char c.
Proof. destruct c as [[] [] [] [] [] [] [] []]; reflexivity. Qed.

Lemma lower_idem s : lower (lower s) = lower s.
Proof.
  induction s as [|c s IH]; [reflexivity|].
  simpl. now rewrite lower_char_idem, IH.
Qed.

(** X20: the parser is chosen by the suffix without regard to case. *)
Theorem load_config_ignores_case (suffix text : string) :
  load_config (lower suffix) text = load_config suffix text.
Proof. unfold load_config. now rewrite lower_idem. Qed.

(** X21: under a suffix that is none of [.yaml], [.yml] and [.json], a text
    the JSON parser accepts is always loaded: as what the YAML parser makes of
    it when that parser is there and accepts it too, as the JSON document
    otherwise. *)
Theorem load_config_falls_back_to_json (suffix text : string) (cfg : pyval) :
  lower suffix <> ".yaml" -> lower suffix <> ".yml" -> lower suffix <> ".json" ->
  json_loads text = Ok cfg ->
  (forall safe_load e, yaml_safe_load = Some safe_load ->
     safe_load text = Raise e -> is_exception e = true) ->
  load_config suffix text =
  match yaml_safe_load with
  | Some safe_load =>
      match safe_load text with
      | Ok cfg' => Loaded cfg'
      | Raise _ => Loaded cfg
      end
  | None => Loaded cfg
  end.
Proof.
  intros H1 H2 H3 Hjson Hexc. unfold load_config.
  destruct (String.eqb_spec (lower suffix) ".yaml"); [contradiction|].
  destruct (String.eqb_spec (lower suffix) ".yml"); [contradiction|].
  destruct (String.eqb_spec (lower suffix) ".json"); [contradiction|].
  simpl. rewrite Hjson. simpl.
  destruct yaml_safe_load as [safe_load|] eqn:Hy; [|reflexivity].
  destruct (safe_load text) as [cfg'|e] eqn:Hl; [reflexivity|].
  now rewrite (Hexc safe_load e eq_refl Hl).
Qed.

(** X22: a YAML suffix never reaches the JSON parser: without PyYAML the
    load ends with the [RuntimeError], with it the outcome is the YAML
    parser's, whatever the JSON parser would say. *)
Theorem load_config_yaml_suffix (suffix text : string) :
  lower suffix = ".yaml" \/ lower suffix = ".yml" ->
  match yaml_safe_load with
  | Some safe_load => load_config suffix text = of_result (safe_load text)
  | None => exists msg, load_config suffix text = RuntimeError msg
  end.
Proof.
  intros H. unfold load_config.
  assert (Hs : String.eqb (lower suffix) ".yaml" || String.eqb (lower suffix) ".yml" = true).
  { destruct H as [->| ->]; reflexivity. }
  rewrite Hs. destruct yaml_safe_load; eauto.
Qed.

End LoadFacts.

(** ** The further facts at the sample inputs *)

Import Sample2.

Lemma create_workflow_failure_exits_2_witness :
  @main sample_builtins refusing_system real_args sample_cfg [] =
  (Raise (SystemExit 2),
   [Stdout "+ justin create-workflow --description cosmics --monte-carlo 10";
    Spawn create_wf;
    Stderr "ERROR: create-workflow failed.";
    Stderr "permission denied"]).
Proof.
  refine (proj1 (@create_workflow_failure_exits_2 sample_builtins refusing_system
            real_args sample_cfg (sample_config sample_stages) create_wf []
            {| returncode := 1; stdout := Some ""; stderr := Some "permission denied" |}
            _ eq_refl eq_refl eq_refl _)).
  discriminate.
Defined.

Lemma workflow_id_is_trimmed_output_witness :
  @create_workflow sample_builtins good_system real_args sample_workflow [] =
  (Ok "4711",
   [Stdout "+ justin create-workflow --description cosmics --monte-carlo 10";
    Spawn create_wf;
    Stdout "WFID=4711"]).
Proof.
  refine (@workflow_id_is_trimmed_output sample_builtins good_system real_args sample_workflow
            create_wf []
            {| returncode := 0; stdout := Some ("4711" +:+ newline); stderr := Some "" |}
            _ ("4711" +:+ newline) eq_refl eq_refl eq_refl eq_refl eq_refl _).
  discriminate.
Defined.

Lemma submit_failure_exits_4_witness :
  fst (@main sample_builtins (failing_after 5) real_args sample_cfg []) =
  Raise (SystemExit 4).
Proof.
  refine (f_equal fst
    (proj1 (@submit_failure_exits_4 sample_builtins (failing_after 5)
              real_args sample_cfg (sample_config sample_stages) [] "4711" _ _
              {| returncode := 1; stdout := Some ""; stderr := Some "service unavailable" |}
              _ eq_refl eq_refl eq_refl eq_refl _))).
  discriminate.
Defined.

Lemma show_stages_result_ignored_witness :
  fst (@main sample_builtins (failing_after 6) real_args sample_cfg []) = Ok tt.
Proof.
  exact (f_equal fst
    (proj1 (@show_stages_result_ignored sample_builtins (failing_after 6)
              real_args sample_cfg (sample_config sample_stages) [] "4711" _ _
              {| returncode := 0; stdout := Some ("4711" +:+ newline); stderr := Some "" |}
              _ eq_refl eq_refl eq_refl eq_refl eq_refl))).
Defined.


Lemma dry_run_spawns_nothing_witness :
  no_spawn (snd (@main sample_builtins refusing_system dry_args sample_cfg [])).
Proof.
  apply (@dry_run_spawns_nothing sample_builtins refusing_system dry_args sample_cfg []).
  - reflexivity.
  - intros argv [].
Defined.

Lemma stage_error_stops_before_call_witness :
  @main sample_builtins good_system real_args no_jobscript_cfg [] =
  (Raise (ValueError "Stage g4: jobscript missing."),
   [Stdout "+ justin create-workflow --description cosmics --monte-carlo 10";
    Spawn create_wf;
    Stdout "WFID=4711";
    Stdout (echo_line (snd (stage_command "gen" "gen.jobscript")) false);
    Spawn (snd (stage_command "gen" "gen.jobscript"))]).
Proof.
  rewrite (@stage_error_stops_before_call sample_builtins good_system real_args
             no_jobscript_cfg
             (sample_config [stage_entry "gen" "gen.jobscript"; no_jobscript_stage])
             [stage_entry "gen" "gen.jobscript"] no_jobscript_stage [] ""
             (ValueError "Stage g4: jobscript missing.") []
             eq_refl eq_refl eq_refl).
  reflexivity.
Defined.

Lemma merge_defaults_field_precedence_witness :
  exists merged,
    @merge_defaults sample_builtins
      (PDict [("id", PStr "g4"); ("ref", PStr "v2")]) (PDict defaults_record) = Ok merged /\
    dict_get "ref" merged = Some (PStr "v2") /\
    dict_get "repo" merged = Some (PStr "org/repo").
Proof.
  assert (Hwf : dict_wf [("id", PStr "g4"); ("ref", PStr "v2")]) by solve_wf.
  eexists. split; [reflexivity|]. split.
  - refine (@merge_defaults_field_precedence sample_builtins
              [("id", PStr "g4"); ("ref", PStr "v2")] defaults_record _ "ref"
              Hwf eq_refl _). discriminate.
  - refine (@merge_defaults_field_precedence sample_builtins
              [("id", PStr "g4"); ("ref", PStr "v2")] defaults_record _ "repo"
              Hwf eq_refl _). discriminate.
Defined.

Lemma env_check_never_fails_witness :
  exists env,
    @env_flags sample_builtins "g4" [("id", PStr "g4"); ("env", PDict [])]
    = Ok (flat_map (fun kv => ["--env"; fst kv +:+ "=" +:+ @py_str sample_builtins (snd kv)])
            env).
Proof.
  destruct (@env_check_never_fails sample_builtins
              (PDict [("id", PStr "g4"); ("env", PNone)]) (PDict [])
              [("id", PStr "g4"); ("env", PDict [])] "g4" eq_refl)
    as (env & _ & H).
  exists env. exact H.
Defined.

Lemma env_flags_order_witness :
  exists merged,
    @merge_defaults sample_builtins
      (PDict [("id", PStr "g4"); ("env", PDict env_stage)])
      (PDict [("env", PDict env_defaults)]) = Ok merged /\
    @env_flags sample_builtins "g4" merged =
    Ok ["--env"; "A=1"; "--env"; "B=3"; "--env"; "C=4"].
Proof.
  assert (Hwf : dict_wf env_stage) by solve_wf.
  destruct (@env_flags_order sample_builtins
              [("id", PStr "g4"); ("env", PDict env_stage)]
              [("env", PDict env_defaults)] env_stage env_defaults "g4"
              eq_refl eq_refl Hwf) as (merged & Hm & Hflags & _).
  exists merged. split; [exact Hm | exact Hflags].
Defined.

Lemma missing_script_location_raises_witness :
  @create_stage_cmd sample_builtins ["justin"] "4711" (PDict [])
    [("id", PStr "g4"); ("repo", PStr "org/repo"); ("env", PDict [])] =
  Raise (ValueError "Stage g4: ref missing (set defaults.ref or stage.ref).").
Proof.
  exact (proj1 (proj2 (@missing_script_location_raises sample_builtins
           ["justin"] "4711" []
           [("id", PStr "g4"); ("repo", PStr "org/repo"); ("env", PDict [])]
           (PStr "g4") eq_refl)) eq_refl eq_refl).
Defined.


Lemma create_stage_cmd_head_witness :
  exists flags,
    snd (stage_command "gen" "gen.jobscript") =
    ["justin"; "create-stage"; "--workflow-id"; "4711"; "--stage-id"; "gen";
     "--jobscript-git"; "org/repo/gen.jobscript:main"] ++ flags.
Proof.
  destruct (@create_stage_cmd_head sample_builtins ["justin"] "4711"
              defaults_record no_version "gen"
              (snd (stage_command "gen" "gen.jobscript")) eq_refl) as [flags H].
  exists flags. exact H.
Defined.

Lemma workflow_id_in_every_command_witness :
  adjacent "--workflow-id" "4711" (snd (stage_command "gen" "gen.jobscript")) = true.
Proof.
  exact (proj1 (@workflow_id_in_every_command sample_builtins real_args "4711"
                  sample_defaults (stage_entry "gen" "gen.jobscript") "gen"
                  (snd (stage_command "gen" "gen.jobscript")) eq_refl)).
Defined.

Lemma output_patterns_must_be_list_witness :
  @create_stage_cmd sample_builtins ["justin"] "4711" sample_defaults string_patterns =
  Raise (ValueError "Stage reco: output_patterns must be a list").
Proof.
  exact (@output_patterns_must_be_list sample_builtins ["justin"] "4711"
           sample_defaults string_patterns (PStr "*_reco.root") "reco"
           (snd (stage_command "reco" "reco.jobscript"))
           eq_refl eq_refl eq_refl eq_refl).
Defined.

Lemma single_output_pattern_used_witness :
  exists pre post,
    pre ++ ["--output-pattern"; "*_reco.root"] ++ post =
    snd (stage_command "reco" "reco.jobscript") ++ ["--output-pattern"; "*_reco.root"] /\
    @create_stage_cmd sample_builtins ["justin"] "4711" sample_defaults
      (dict_remove "output_pattern" empty_patterns) = Ok ("reco", pre ++ post).
Proof.
  destruct (@single_output_pattern_used sample_builtins ["justin"] "4711"
              sample_defaults empty_patterns (PStr "*_reco.root") "reco"
              (snd (stage_command "reco" "reco.jobscript")
               ++ ["--output-pattern"; "*_reco.root"])
              eq_refl eq_refl eq_refl eq_refl) as (pre & post & Hcmd & Hwithout).
  exists pre, post. split; [symmetry; exact Hcmd | exact Hwithout].
Defined.

Lemma stage_list_required_witness :
  @main sample_builtins good_system real_args
    (PDict [("workflow", sample_workflow); ("stages", PList [])]) [] =
  (Raise (ValueError "Config must contain a non-empty 'stages:' list."), []).
Proof.
  apply (@stage_list_required sample_builtins good_system real_args
           [("workflow", sample_workflow); ("stages", PList [])] []).
  right. exists (PList []). split; [reflexivity|]. left. reflexivity.
Defined.

Lemma workflow_keys_required_witness :
  @main sample_builtins good_system real_args
    (PDict [("workflow", PDict [("description", PStr "cosmics")]);
            ("stages", PList sample_stages)]) [] =
  (Raise (ValueError "workflow.monte_carlo is required"), []).
Proof.
  exact (proj2 (@workflow_keys_required sample_builtins good_system real_args
           [("workflow", PDict [("description", PStr "cosmics")]);
            ("stages", PList sample_stages)]
           [("description", PStr "cosmics")]
           (stage_entry "gen" "gen.jobscript")
           [stage_entry "g4" "g4.jobscript"; stage_entry "detsim" "detsim.jobscript";
            stage_entry "reco" "reco.jobscript"] [] eq_refl eq_refl)
         eq_refl eq_refl).
Defined.

Lemma document_must_be_mapping_witness :
  @main sample_builtins good_system real_args PNone [] = (Raise AttributeError, []).
Proof.
  exact (@document_must_be_mapping sample_builtins good_system real_args PNone []
           eq_refl).
Defined.

Lemma load_config_falls_back_to_json_witness :
  @load_config sample_parsers ".CFG" "{}" = Loaded (PDict []).
Proof.
  refine (@load_config_falls_back_to_json sample_parsers ".CFG" "{}" (PDict [])
            _ _ _ eq_refl _); try discriminate.
  intros safe_load e [= <-] H. simpl in H. now injection H as <-.
Defined.

Lemma load_config_yaml_suffix_witness :
  @load_config sample_parsers ".YML" "a: 1" = Loaded (PDict [("a", PInt 1)]).
Proof.
  exact (@load_config_yaml_suffix sample_parsers ".YML" "a: 1" (or_intror eq_refl)).
Defined.

(** ** Single flags of the [create-stage] command *)

Section FlagFacts.
Context {builtins : Builtins}.

Lemma adjacent_cons a b x y (l : list string) :
  adjacent a b (x :: y :: l) =
  (String.eqb x a && String.eqb y b) || adjacent a b (y :: l).
Proof. reflexivity. Qed.

Lemma adjacent_app_l a b (l1 l2 : list string) :
  adjacent a b l1 = true -> adjacent a b (l1 ++ l2) = true.
Proof.
  induction l1 as [|x l1 IH]; [discriminate|].
  destruct l1 as [|y l1]; [discriminate|].
  rewrite <- !app_comm_cons, !adjacent_cons.
  intros [H|H]%orb_true_iff.
  - now rewrite H.
  - rewrite app_comm_cons, (IH H). apply orb_true_r.
Qed.

(** X23: a software version that is configured (and not null) reaches the
    command as the pair [--env], [DUNESW_VERSION=<version>]. *)
Theorem configured_version_flag g wfid d st_merged v stage_id cmd :
  dict_get "dunesw_version" st_merged = Some v ->
  v <> PNone ->
  create_stage_cmd g wfid d st_merged = Ok (stage_id, cmd) ->
  adjacent "--env" ("DUNESW_VERSION=" +:+ as_str v) cmd = true.
Proof.
  intros Hv Hnone H. unfold create_stage_cmd in H.
  rbind_inv H idv Eid. rbind_inv H drepo E1. rbind_inv H dref E2.
  rbind_inv H u1 E3. rbind_inv H u2 E4. rbind_inv H u3 E5.
  rbind_inv H env E6. rbind_inv H ops E7. rbind_inv H sites E8.
  injection H as _ <-.
  assert (Hflags : dunesw_flags st_merged = ["--env"; "DUNESW_VERSION=" +:+ as_str v]).
  { unfold dunesw_flags, set_not_none. rewrite Hv. now destruct v. }
  rewrite Hflags. do 7 apply adjacent_app_l. apply adjacent_app_r.
  simpl. now rewrite String.eqb_refl.
Qed.

(** X24: a single classad and a list holding just that classad give the
    same flags, one [--classad] pair; an empty or missing [classad] gives
    none. *)
Theorem classad_single_or_list (st1 st2 st3 : dict) v :
  truthy v = true -> is_list v = false ->
  dict_get "classad" st1 = Some v ->
  dict_get "classad" st2 = Some (PList [v]) ->
  set_truthy st3 "classad" = None ->
  classad_flags st1 = ["--classad"; as_str v] /\
  classad_flags st2 = ["--classad"; as_str v] /\
  classad_flags st3 = [].
Proof.
  intros Hv Hl H1 H2 H3. unfold classad_flags.
  rewrite H3. unfold set_truthy. rewrite H1, H2, Hv. simpl.
  repeat split. destruct v; try reflexivity. discriminate Hl.
Qed.

End FlagFacts.

Lemma configured_version_flag_witness :
  exists stage_id cmd,
    @create_stage_cmd sample_builtins ["justin"] "4711" sample_defaults
      (dict_set "dunesw_version" (PStr "v10_20_00d00") no_version) = Ok (stage_id, cmd) /\
    adjacent "--env" "DUNESW_VERSION=v10_20_00d00" cmd = true.
Proof.
  eexists _, _. split; [reflexivity|].
  refine (@configured_version_flag sample_builtins ["justin"] "4711" sample_defaults
            (dict_set "dunesw_version" (PStr "v10_20_00d00") no_version)
            (PStr "v10_20_00d00") _ _ eq_refl _ eq_refl).
  discriminate.
Defined.

Lemma classad_single_or_list_witness :
  @classad_flags sample_builtins [("classad", PStr "+wantGPU=True")] =
  @classad_flags sample_builtins [("classad", PList [PStr "+wantGPU=True"])].
Proof.
  destruct (@classad_single_or_list sample_builtins
              [("classad", PStr "+wantGPU=True")]
              [("classad", PList [PStr "+wantGPU=True"])]
              [("classad", PList [])] (PStr "+wantGPU=True")
              eq_refl eq_refl eq_refl eq_refl eq_refl) as (H1 & H2 & _).
  now rewrite H1, H2.
Defined.
